(** * koishi-plugin-chat-model: a shallow embedding of the plugin and its adapters

    The development follows the layout of the repository:
    - [Js]: the JavaScript notions the code relies on (truthiness, the
      string methods [includes], [startsWith], [substring] and [trim],
      [Array.prototype.splice], thrown errors, promises and timers, the
      values of a parsed JSON body);
    - [Http]: one request sent with an abort signal;
    - [Config], [Session]: the plugin's options and the inbound message;
    - [OpenAIAdapter], [ClaudeAdapter], [GeminiAdapter]: the files of [lib/];
    - [Database]: the two tables kept by the host's database service;
    - [Plugin]: the context store, the usage limiter, the message handler,
      the trigger gate and the middleware of the plugin's entry file;
    - [Props]: the vocabulary of the properties, which come last;
    - [Loader], [MoreProps]: the loading of the adapter at the start of the
      plugin, and the vocabulary of the further properties.

    Strings are sequences of bytes (UTF-8). Logging is left out: it has no
    effect on what the code returns or stores. *)

From Stdlib Require Import ZArith QArith.
From stdpp Require Import gmap strings list fin_maps pretty.

Set Warnings "-register-all".

Local Open Scope string_scope.
Local Open Scope list_scope.
Local Open Scope Z_scope.

(** ** JavaScript notions *)

Module Js.

(** A string is truthy when it is not the empty string. *)
Definition truthy (s : string) : bool :=
  match s with
  | EmptyString => false
  | String _ _ => true
  end.

(** [s.startsWith(p)] *)
Fixpoint startsWith (s p : string) : bool :=
  match p with
  | EmptyString => true
  | String c p' =>
      match s with
      | EmptyString => false
      | String d s' => if Ascii.eqb c d then startsWith s' p' else false
      end
  end.

(** [s.includes(p)] *)
Fixpoint includes (s p : string) : bool :=
  if startsWith s p then true
  else match s with
       | EmptyString => false
       | String _ s' => includes s' p
       end.

(** [s.substring(n)] for [0 <= n]. *)
Fixpoint substring (n : nat) (s : string) : string :=
  match n with
  | O => s
  | S n' => match s with
            | EmptyString => EmptyString
            | String _ s' => substring n' s'
            end
  end.

(** The white space of [trim] within ASCII: tab, line feed, vertical tab,
    form feed, carriage return and space. *)
Definition isWhiteSpace (c : Ascii.ascii) : bool :=
  let n := Ascii.nat_of_ascii c in
  ((9 <=? n)%nat && (n <=? 13)%nat) || (n =? 32)%nat.

Fixpoint trimStart (s : string) : string :=
  match s with
  | EmptyString => EmptyString
  | String c s' => if isWhiteSpace c then trimStart s' else s
  end.

Fixpoint trimEnd (s : string) : string :=
  match s with
  | EmptyString => EmptyString
  | String c s' =>
      match trimEnd s' with
      | EmptyString => if isWhiteSpace c then EmptyString else String c EmptyString
      | t => String c t
      end
  end.

Definition trim (s : string) : string := trimEnd (trimStart s).

(** [a.splice(1, 2)]: removes the (at most two) elements at indices 1 and 2
    in place; returns the array left and the elements removed. *)
Definition splice_1_2 {A} (a : list A) : list A * list A :=
  match a with
  | [] => ([], [])
  | x :: rest => (x :: drop 2 rest, take 2 rest)
  end.

(** An [Error] object: the code reads [error.name] and [error.message]. *)
Record Error := mkError { name : string; message : string }.

(** [new Error(msg)] *)
Definition newError (msg : string) : Error := mkError "Error" msg.

(** How an [async] call settles; a [throw] inside it is a rejection. The
    reason of a rejection is an [Error] object, as it is for every rejection
    the adapters of [lib/] produce. *)
Inductive Settled (A : Type) :=
| Fulfilled (value : A)
| Rejected (reason : Error).
Arguments Fulfilled {A} value.
Arguments Rejected {A} reason.

Definition bind {A B} (m : Settled A) (k : A -> Settled B) : Settled B :=
  match m with
  | Fulfilled a => k a
  | Rejected e => Rejected e
  end.

(** A promise seen from the moment it is created: it settles after [at_ms]
    milliseconds, or stays pending for ever. *)
Inductive Promise (A : Type) :=
| Settles (at_ms : Z) (how : Settled A)
| Pending.
Arguments Settles {A} at_ms how.
Arguments Pending {A}.

(** The delay [setTimeout] really uses: Node replaces a delay below 1 or
    above 2^31-1 by 1. *)
Definition timerDelay (ms : Z) : Z :=
  if (ms <? 1) || (2147483647 <? ms) then 1 else ms.

(** [a || b] on strings. *)
Definition orElse (a b : string) : string := if truthy a then a else b.

(** The values [JSON.parse] produces, and [undefined]. Numbers are only
    tested for truthiness and printed, so integers stand for them. *)
Inductive Value :=
| Undefined
| Null
| Bool (b : bool)
| Num (n : Z)
| Str (s : string)
| Arr (items : list Value)
| Obj (fields : list (string * Value)).

Definition truthyValue (v : Value) : bool :=
  match v with
  | Undefined | Null => false
  | Bool b => b
  | Num n => negb (n =? 0)
  | Str s => truthy s
  | Arr _ | Obj _ => true
  end.

Definition typeError (msg : string) : Error := mkError "TypeError" msg.

Definition cannotRead (what key : string) : Error :=
  typeError ("Cannot read properties of " +:+ what +:+ " (reading '" +:+ key +:+ "')").

Fixpoint lookupField (key : string) (fields : list (string * Value)) : Value :=
  match fields with
  | [] => Undefined
  | (k, v) :: rest => if String.eqb k key then v else lookupField key rest
  end.

(** [v.key] for a key that no prototype defines. *)
Definition getProp (v : Value) (key : string) : Settled Value :=
  match v with
  | Undefined => Rejected (cannotRead "undefined" key)
  | Null => Rejected (cannotRead "null" key)
  | Obj fields => Fulfilled (lookupField key fields)
  | _ => Fulfilled Undefined
  end.

(** [v[0]] *)
Definition getFirst (v : Value) : Settled Value :=
  match v with
  | Undefined => Rejected (cannotRead "undefined" "0")
  | Null => Rejected (cannotRead "null" "0")
  | Arr items => Fulfilled (match items with [] => Undefined | x :: _ => x end)
  | Str s => Fulfilled (match s with
                        | EmptyString => Undefined
                        | String c _ => Str (String c EmptyString)
                        end)
  | Obj fields => Fulfilled (lookupField "0" fields)
  | _ => Fulfilled Undefined
  end.

(** [String(v)], as string concatenation applies it. *)
Fixpoint toString (v : Value) : string :=
  match v with
  | Undefined => "undefined"
  | Null => "null"
  | Bool true => "true"
  | Bool false => "false"
  | Num n => pretty n
  | Str s => s
  | Arr items =>
      String.concat ","
        (List.map (fun x => match x with
                            | Undefined | Null => ""
                            | _ => toString x
                            end) items)
  | Obj _ => "[object Object]"
  end.

(** [v.trim()], [expr] being the source text of [v]. *)
Definition callTrim (expr : string) (v : Value) : Settled string :=
  match v with
  | Str s => Fulfilled (trim s)
  | Undefined => Rejected (cannotRead "undefined" "trim")
  | Null => Rejected (cannotRead "null" "trim")
  | _ => Rejected (typeError (expr +:+ ".trim is not a function"))
  end.

End Js.

#[global] Instance Settled_bind : MBind Js.Settled := fun A B k m => Js.bind m k.
#[global] Instance Settled_ret : MRet Js.Settled := @Js.Fulfilled.

(** ** node-fetch, as the adapters use it *)

Module Http.

Record Response := mkResponse {
  ok : bool;
  status : Z;
  statusText : string;
  json : Js.Settled Js.Value   (* what [response.json()] settles to *)
}.

(** What the provider does with one request, left alone. *)
Inductive Exchange :=
| RespondsAfter (ms : Z) (r : Response)
| FailsAfter (ms : Z) (e : Js.Error)
| NeverSettles.

Definition abortError : Js.Error :=
  Js.mkError "AbortError" "The user aborted a request.".

(** [fetch(url, { signal })] with [setTimeout(() => controller.abort(), timeout)]
    armed just before: the time at which the awaited fetch settles, and how.
    The body is taken to arrive with the headers. *)
Definition fetchWithAbort (timeout : Z) (x : Exchange) : Z * Js.Settled Response :=
  let deadline := Js.timerDelay timeout in
  match x with
  | RespondsAfter ms r =>
      if ms <? deadline then (ms, Js.Fulfilled r) else (deadline, Js.Rejected abortError)
  | FailsAfter ms e =>
      if ms <? deadline then (ms, Js.Rejected e) else (deadline, Js.Rejected abortError)
  | NeverSettles => (deadline, Js.Rejected abortError)
  end.

(** [await response.json().catch(() => ({}))] *)
Definition jsonOrEmpty (r : Response) : Js.Value :=
  match json r with
  | Js.Fulfilled v => v
  | Js.Rejected _ => Js.Obj []
  end.

End Http.

(** ** The plugin's configuration ([exports.Config]) and the session *)

Module UsageLimit.
Record t := mk {
  enabled : bool;
  maxMessagesPerUser : Z;
  resetTime : string
}.
End UsageLimit.

(** An optional string that is not set is the empty string: the code only
    tests such options for truthiness. [contextSize], [responseTimeout] and
    [triggerRatio] are taken among the integers. *)
Module Config.
Record t := mk {
  modelType : string;
  apiKey : string;
  apiEndpoint : string;
  modelName : string;
  systemPrompt : string;
  contextSize : Z;
  temperature : option Q;
  responseTimeout : Z;
  triggerRatio : Z;
  triggerPrefix : string;
  triggerPrivate : bool;
  triggerGroup : bool;
  showThinkingMessage : bool;
  customModelAdapter : string;
  usageLimit : option UsageLimit.t
}.
End Config.

Module Session.
Record t := mk {
  userId : string;
  selfId : string;
  channelId : string;
  content : string
}.
End Session.

(** ** The conversation turns shared by the plugin and the adapters *)

Record Message := mkMessage { role : string; content : string }.

(** [koishiMessages.find(msg => msg.role === 'system')?.content || ''] *)
Definition findSystemContent (koishiMessages : list Message) : string :=
  match List.find (fun msg => String.eqb (role msg) "system") koishiMessages with
  | Some msg => content msg
  | None => ""
  end.

(** The message every adapter throws for a payload of the wrong shape. *)
Definition invalidResponse : Js.Error := Js.newError "收到无效的API响应".

(** ** lib/openai-adapter.js *)

Module OpenAIAdapter.

Record t := mk {
  apiKey : string;
  apiEndpoint : string;
  modelName : string;
  temperature : Q
}.

(** [constructor(ctx, config)] *)
Definition new (config : Config.t) : Js.Settled t :=
  let self :=
    mk (Config.apiKey config)
       (Js.orElse (Config.apiEndpoint config) "https://api.openai.com/v1")
       (Js.orElse (Config.modelName config) "gpt-3.5-turbo")
       (default (7 # 10)%Q (Config.temperature config)) in
  if Js.truthy (apiKey self) then Js.Fulfilled self
  else Js.Rejected (Js.newError "OpenAI API密钥未设置").

Record Request := mkRequest {
  url : string;
  authorization : string;
  model : string;
  messages : list Message;
  reqTemperature : Q;
  user : string
}.

Definition timeout : Z := 60000.

(** The body of the [try] once the fetch has settled. *)
Definition readResponse (fetched : Js.Settled Http.Response) : Js.Settled string :=
  response ← fetched;
  if negb (Http.ok response) then
    let error := Http.jsonOrEmpty response in
    inner ← Js.getProp error "error";
    detail ←
      (if Js.truthyValue inner then Js.getProp inner "message"
       else Js.Fulfilled Js.Undefined);
    Js.Rejected (Js.newError
      ("API请求失败: " +:+ pretty (Http.status response) +:+ " "
       +:+ Http.statusText response
       +:+ (if Js.truthyValue detail then ": " +:+ Js.toString detail else "")))
  else
    data ← Http.json response;
    choices ← Js.getProp data "choices";
    if negb (Js.truthyValue choices) then Js.Rejected invalidResponse else
    choice ← Js.getFirst choices;
    if negb (Js.truthyValue choice) then Js.Rejected invalidResponse else
    msg ← Js.getProp choice "message";
    if negb (Js.truthyValue msg) then Js.Rejected invalidResponse else
    text ← Js.getProp msg "content";
    Js.callTrim "data.choices[0].message.content" text.

(** The [catch] of [generateResponse]. *)
Definition classify (r : Js.Settled string) : Js.Settled string :=
  match r with
  | Js.Fulfilled v => Js.Fulfilled v
  | Js.Rejected error =>
      if String.eqb (Js.name error) "AbortError"
      then Js.Rejected (Js.newError "请求超时，请稍后再试")
      else if Js.includes (Js.message error) "429"
      then Js.Rejected (Js.newError "请求过于频繁，请稍后再试")
      else if Js.includes (Js.message error) "401"
      then Js.Rejected (Js.newError "API密钥无效或已过期")
      else if Js.includes (Js.message error) "insufficient_quota"
      then Js.Rejected (Js.newError "API配额已用尽")
      else Js.Rejected error
  end.

Definition generateResponse (self : t) (net : Request -> Http.Exchange)
    (msgs : list Message) (session : Session.t) : Js.Promise string :=
  let request :=
    mkRequest (apiEndpoint self +:+ "/chat/completions")
              ("Bearer " +:+ apiKey self)
              (modelName self) msgs (temperature self)
              (Session.userId session) in
  let '(at_ms, fetched) := Http.fetchWithAbort timeout (net request) in
  Js.Settles at_ms (classify (readResponse fetched)).

End OpenAIAdapter.

(** ** lib/claude-adapter.js *)

Module ClaudeAdapter.

Record t := mk {
  apiKey : string;
  apiEndpoint : string;
  modelName : string;
  temperature : Q
}.

(** [modelMap[key]]; the empty string stands for [undefined]. *)
Definition modelMap (key : string) : string :=
  if String.eqb key "claude-3-opus" then "claude-3-opus-20240229"
  else if String.eqb key "claude-3-sonnet" then "claude-3-sonnet-20240229"
  else if String.eqb key "claude-3-haiku" then "claude-3-haiku-20240307"
  else if String.eqb key "claude-2" then "claude-2.0"
  else if String.eqb key "claude-instant" then "claude-instant-1.2"
  else "".

Definition new (config : Config.t) : Js.Settled t :=
  let self :=
    mk (Config.apiKey config)
       (Js.orElse (Config.apiEndpoint config) "https://api.anthropic.com/v1")
       (Js.orElse (modelMap (Config.modelName config))
          (Js.orElse (Config.modelName config) "claude-3-sonnet-20240229"))
       (default (7 # 10)%Q (Config.temperature config)) in
  if Js.truthy (apiKey self) then Js.Fulfilled self
  else Js.Rejected (Js.newError "Claude API密钥未设置").

Record Formatted := mkFormatted {
  systemMessage : string;
  messages : list Message
}.

Definition foldRole (msg : Message) : Message :=
  mkMessage (if String.eqb (role msg) "assistant" then "assistant" else "user")
            (content msg).

Definition formatMessages (koishiMessages : list Message) : Formatted :=
  let systemMessage := findSystemContent koishiMessages in
  let conversationMessages :=
    List.filter (fun msg => negb (String.eqb (role msg) "system")) koishiMessages in
  let claudeMessages := List.map foldRole conversationMessages in
  mkFormatted systemMessage claudeMessages.

Record Request := mkRequest {
  url : string;
  xApiKey : string;
  anthropicVersion : string;
  model : string;
  reqMessages : list Message;
  system : string;
  reqTemperature : Q;
  max_tokens : Z;
  user_id : string
}.

Definition timeout : Z := 60000.

Definition readResponse (fetched : Js.Settled Http.Response) : Js.Settled string :=
  response ← fetched;
  if negb (Http.ok response) then
    let error := Http.jsonOrEmpty response in
    inner ← Js.getProp error "error";
    Js.Rejected (Js.newError
      ("API请求失败: " +:+ pretty (Http.status response) +:+ " "
       +:+ Http.statusText response
       +:+ (if Js.truthyValue inner then ": " +:+ Js.toString inner else "")))
  else
    data ← Http.json response;
    blocks ← Js.getProp data "content";
    if negb (Js.truthyValue blocks) then Js.Rejected invalidResponse else
    block ← Js.getFirst blocks;
    if negb (Js.truthyValue block) then Js.Rejected invalidResponse else
    text ← Js.getProp block "text";
    if negb (Js.truthyValue text) then Js.Rejected invalidResponse else
    Js.callTrim "data.content[0].text" text.

Definition classify (r : Js.Settled string) : Js.Settled string :=
  match r with
  | Js.Fulfilled v => Js.Fulfilled v
  | Js.Rejected error =>
      if String.eqb (Js.name error) "AbortError"
      then Js.Rejected (Js.newError "请求超时，请稍后再试")
      else if Js.includes (Js.message error) "429"
      then Js.Rejected (Js.newError "请求过于频繁，请稍后再试")
      else if Js.includes (Js.message error) "401"
      then Js.Rejected (Js.newError "API密钥无效或已过期")
      else if Js.includes (Js.message error) "quota"
      then Js.Rejected (Js.newError "API配额已用尽")
      else Js.Rejected error
  end.

Definition generateResponse (self : t) (net : Request -> Http.Exchange)
    (msgs : list Message) (session : Session.t) : Js.Promise string :=
  let formatted := formatMessages msgs in
  let request :=
    mkRequest (apiEndpoint self +:+ "/messages") (apiKey self) "2023-06-01"
              (modelName self) (messages formatted) (systemMessage formatted)
              (temperature self) 4000 (Session.userId session) in
  let '(at_ms, fetched) := Http.fetchWithAbort timeout (net request) in
  Js.Settles at_ms (classify (readResponse fetched)).

End ClaudeAdapter.

(** ** lib/gemini-adapter.js *)

Module GeminiAdapter.

Record t := mk {
  apiKey : string;
  apiEndpoint : string;
  modelName : string;
  temperature : Q
}.

Definition modelMap (key : string) : string :=
  if String.eqb key "gemini-pro" then "gemini-pro"
  else if String.eqb key "gemini-1.5-pro" then "gemini-1.5-pro"
  else if String.eqb key "gemini-1.5-flash" then "gemini-1.5-flash"
  else "".

Definition new (config : Config.t) : Js.Settled t :=
  let self :=
    mk (Config.apiKey config)
       (Js.orElse (Config.apiEndpoint config)
          "https://generativelanguage.googleapis.com/v1beta")
       (Js.orElse (modelMap (Config.modelName config))
          (Js.orElse (Config.modelName config) "gemini-pro"))
       (default (7 # 10)%Q (Config.temperature config)) in
  if Js.truthy (apiKey self) then Js.Fulfilled self
  else Js.Rejected (Js.newError "Gemini API密钥未设置").

Record Part := mkPart { text : string }.
Record Content := mkContent { grole : string; parts : list Part }.

Definition systemPrefix : string := "系统指令: ".
Definition acknowledgment : string :=
  "我明白了，我会按照指示行动。有什么可以帮助你的吗？".
Definition filler : string := "你好".

Definition convert (msg : Message) : Content :=
  mkContent (if String.eqb (role msg) "user" then "user" else "model")
            [mkPart (content msg)].

Definition formatMessages (koishiMessages : list Message) : list Content :=
  let systemMessage := findSystemContent koishiMessages in
  let geminiMessages :=
    if Js.truthy systemMessage
    then [ mkContent "user" [mkPart (systemPrefix +:+ systemMessage)];
           mkContent "model" [mkPart acknowledgment] ]
    else [] in
  let geminiMessages :=
    geminiMessages ++
    List.map convert
      (List.filter (fun msg => negb (String.eqb (role msg) "system")) koishiMessages) in
  match geminiMessages with
  | [] => [mkContent "user" [mkPart filler]]
  | first :: _ =>
      if String.eqb (grole first) "user" then geminiMessages
      else mkContent "user" [mkPart filler] :: geminiMessages
  end.

Record Request := mkRequest {
  url : string;
  contents : list Content;
  reqTemperature : Q;
  maxOutputTokens : Z;
  topP : Q;
  topK : Z
}.

Definition timeout : Z := 60000.

Definition blockedText : string :=
  "抱歉，您的请求触发了内容安全策略，我无法提供相关内容。".

Definition readResponse (fetched : Js.Settled Http.Response) : Js.Settled string :=
  response ← fetched;
  if negb (Http.ok response) then
    let error := Http.jsonOrEmpty response in
    inner ← Js.getProp error "error";
    detail ←
      (if Js.truthyValue inner then Js.getProp inner "message"
       else Js.Fulfilled Js.Undefined);
    Js.Rejected (Js.newError
      ("API请求失败: " +:+ pretty (Http.status response) +:+ " "
       +:+ Http.statusText response
       +:+ (if Js.truthyValue inner then ": " +:+ Js.toString detail else "")))
  else
    data ← Http.json response;
    candidates ← Js.getProp data "candidates";
    if negb (Js.truthyValue candidates) then Js.Rejected invalidResponse else
    candidate ← Js.getFirst candidates;
    if negb (Js.truthyValue candidate) then Js.Rejected invalidResponse else
    body ← Js.getProp candidate "content";
    if negb (Js.truthyValue body) then Js.Rejected invalidResponse else
    bodyParts ← Js.getProp body "parts";
    if negb (Js.truthyValue bodyParts) then Js.Rejected invalidResponse else
    finishReason ← Js.getProp candidate "finishReason";
    match finishReason with
    | Js.Str "SAFETY" => Js.Fulfilled blockedText
    | _ =>
        part ← Js.getFirst bodyParts;
        partText ← Js.getProp part "text";
        Js.callTrim "data.candidates[0].content.parts[0].text" partText
    end.

Definition classify (r : Js.Settled string) : Js.Settled string :=
  match r with
  | Js.Fulfilled v => Js.Fulfilled v
  | Js.Rejected error =>
      if String.eqb (Js.name error) "AbortError"
      then Js.Rejected (Js.newError "请求超时，请稍后再试")
      else if Js.includes (Js.message error) "429"
      then Js.Rejected (Js.newError "请求过于频繁，请稍后再试")
      else if Js.includes (Js.message error) "400"
              && Js.includes (Js.message error) "Invalid API key"
      then Js.Rejected (Js.newError "API密钥无效")
      else if Js.includes (Js.message error) "quota"
      then Js.Rejected (Js.newError "API配额已用尽")
      else Js.Rejected error
  end.

Definition generateResponse (self : t) (net : Request -> Http.Exchange)
    (msgs : list Message) (session : Session.t) : Js.Promise string :=
  let geminiMessages := formatMessages msgs in
  let request :=
    mkRequest (apiEndpoint self +:+ "/models/" +:+ modelName self
               +:+ ":generateContent?key=" +:+ apiKey self)
              geminiMessages (temperature self) 2048 (95 # 100)%Q 40 in
  let '(at_ms, fetched) := Http.fetchWithAbort timeout (net request) in
  Js.Settles at_ms (classify (readResponse fetched)).

End GeminiAdapter.

(** ** The storage collaborator *)

(** Modelled from the spec: the host's database service is not part of the
    repository. Following the storage contract of the specification, a table
    with primary key [userId] is a finite map from user ids to rows;
    [get(table, {userId})] returns the matching rows, [set(table, {userId},
    patch)] patches them and returns the number of rows it touched, and
    [create(table, record)] inserts a row. [get] hands out a copy of the
    stored row, and none of the three fails. *)
Module Database.

Record ContextRow := mkContextRow {
  context : option (list Message);   (* a json column; [None] is null *)
  updatedAt : Z
}.

Record UsageRow := mkUsageRow {
  dailyCount : Z;
  lastResetDate : string
}.

Record t := mk {
  chatModelContext : gmap string ContextRow;
  chatModelUsage : gmap string UsageRow
}.

Definition empty : t := mk ∅ ∅.

Definition get {R} (table : gmap string R) (userId : string) : list R :=
  match table !! userId with
  | Some row => [row]
  | None => []
  end.

Definition set {R} (table : gmap string R) (userId : string) (patch : R -> R)
    : gmap string R * Z :=
  match table !! userId with
  | Some row => (<[userId := patch row]> table, 1)
  | None => (table, 0)
  end.

Definition create {R} (table : gmap string R) (userId : string) (row : R)
    : gmap string R :=
  <[userId := row]> table.

End Database.

(** ** The plugin's entry file *)

Module Plugin.

Import Database.

(** *** Context store *)

Definition getUserContext (db : Database.t) (userId : string) : list Message :=
  match Database.get (chatModelContext db) userId with
  | record :: _ => default [] (context record)
  | [] => []
  end.

Definition saveUserContext (db : Database.t) (userId : string)
    (ctx : list Message) (now : Z) : Database.t :=
  let '(table, result) :=
    Database.set (chatModelContext db) userId
      (fun _ => mkContextRow (Some ctx) now) in
  let table :=
    if result =? 0
    then Database.create table userId (mkContextRow (Some ctx) now)
    else table in
  Database.mk table (chatModelUsage db).

Definition clearUserContext (db : Database.t) (userId : string) (now : Z)
    : Database.t :=
  let '(table, _) :=
    Database.set (chatModelContext db) userId
      (fun _ => mkContextRow (Some []) now) in
  Database.mk table (chatModelUsage db).

(** The action of the command that clears the context. *)
Definition clearCommand (db : Database.t) (session : Session.t) (now : Z)
    : Database.t * string :=
  (clearUserContext db (Session.userId session) now, "已清除对话上下文").

(** *** Usage limiter *)

(** [config.usageLimit?.enabled] *)
Definition usageEnabled (config : Config.t) : bool :=
  match Config.usageLimit config with
  | Some u => UsageLimit.enabled u
  | None => false
  end.

(** [config.usageLimit?.maxMessagesPerUser || 100] *)
Definition maxPerDay (config : Config.t) : Z :=
  match Config.usageLimit config with
  | Some u =>
      if UsageLimit.maxMessagesPerUser u =? 0 then 100
      else UsageLimit.maxMessagesPerUser u
  | None => 100
  end.

(** [today] is the [YYYY-MM-DD] prefix of the clock read inside the call. *)
Definition checkUsageLimit (db : Database.t) (userId : string)
    (config : Config.t) (today : string) : Database.t * bool :=
  match Database.get (chatModelUsage db) userId with
  | [] => (db, true)
  | record :: _ =>
      if negb (String.eqb (lastResetDate record) today) then
        let '(table, _) :=
          Database.set (chatModelUsage db) userId
            (fun _ => mkUsageRow 0 today) in
        (Database.mk (chatModelContext db) table, true)
      else (db, dailyCount record <? maxPerDay config)
  end.

(** Declared next to [checkUsageLimit] with the same body; nothing calls it. *)
Definition checkAndResetUsage := checkUsageLimit.

Definition updateUsageCount (db : Database.t) (userId : string)
    (today : string) : Database.t :=
  match Database.get (chatModelUsage db) userId with
  | [] =>
      Database.mk (chatModelContext db)
        (Database.create (chatModelUsage db) userId (mkUsageRow 1 today))
  | record :: _ =>
      let patch :=
        if negb (String.eqb (lastResetDate record) today)
        then (fun _ : UsageRow => mkUsageRow 1 today)
        else (fun row : UsageRow =>
                mkUsageRow (dailyCount record + 1) (lastResetDate row)) in
      let '(table, _) := Database.set (chatModelUsage db) userId patch in
      Database.mk (chatModelContext db) table
  end.

(** *** Message handler *)

Definition userTurn (text : string) : Message := mkMessage "user" text.
Definition assistantTurn (text : string) : Message := mkMessage "assistant" text.
Definition systemTurn (text : string) : Message := mkMessage "system" text.

(** [while (userContext.length > config.contextSize * 2 + 1) userContext.splice(1, 2)];
    [None] when [fuel] iterations do not end the loop. *)
Fixpoint limitContext (fuel : nat) (contextSize : Z) (userContext : list Message)
    : option (list Message) :=
  if contextSize * 2 + 1 <? Z.of_nat (length userContext) then
    match fuel with
    | O => None
    | S fuel' => limitContext fuel' contextSize (Js.splice_1_2 userContext).1
    end
  else Some userContext.

(** The system prompt is made the first turn, or refreshed when it is. *)
Definition ensureSystem (systemPrompt : string) (userContext : list Message)
    : list Message :=
  match userContext with
  | [] => [systemTurn systemPrompt]
  | first :: rest =>
      if negb (String.eqb (role first) "system")
      then systemTurn systemPrompt :: userContext
      else mkMessage (role first) systemPrompt :: rest
  end.

(** [(config.responseTimeout || 60) * 1000] *)
Definition handlerTimeout (config : Config.t) : Z :=
  (if Config.responseTimeout config =? 0 then 60
   else Config.responseTimeout config) * 1000.

Definition timeoutError : Js.Error := Js.newError "响应超时".

(** [Promise.race([p, new Promise((_, reject) => setTimeout(..., timeout))])].
    [p] was started before the timer is armed, so it wins when both are due
    at the same millisecond. *)
Definition race (p : Js.Promise string) (timeout : Z) : Js.Settled string :=
  match p with
  | Js.Settles at_ms how =>
      if at_ms <=? Js.timerDelay timeout then how else Js.Rejected timeoutError
  | Js.Pending => Js.Rejected timeoutError
  end.

Definition apology (error : Js.Error) : string :=
  "抱歉，生成回复时发生错误: " +:+ Js.message error.

(** The type of [modelInstance.generateResponse]. *)
Definition Model : Type := list Message -> Session.t -> Js.Promise string.

(** The first half of the handler: load, append the user turn, enforce the
    cap, set the system prompt. [None] when the loop does not end within
    [fuel] iterations. *)
Definition prepareContext (fuel : nat) (config : Config.t) (db : Database.t)
    (session : Session.t) (text : string) : option (list Message) :=
  let userContext := getUserContext db (Session.userId session) in
  let userContext := userContext ++ [userTurn text] in
  match limitContext fuel (Config.contextSize config) userContext with
  | None => None
  | Some userContext => Some (ensureSystem (Config.systemPrompt config) userContext)
  end.

(** [createMessageHandler(ctx, config, modelInstance)(session, content)]:
    the database left and the reply. [now] is the clock read by the save. *)
Definition messageHandler (fuel : nat) (config : Config.t) (model : Model)
    (now : Z) (db : Database.t) (session : Session.t) (text : string)
    : option (Database.t * string) :=
  match prepareContext fuel config db session text with
  | None => None
  | Some userContext =>
      let timeout := handlerTimeout config in
      match race (model userContext session) timeout with
      | Js.Fulfilled response =>
          let userContext := userContext ++ [assistantTurn response] in
          Some (saveUserContext db (Session.userId session) userContext now,
                response)
      | Js.Rejected error => Some (db, apology error)
      end
  end.

(** *** Trigger gate and middleware *)

Definition shouldIgnoreMessage (session : Session.t) (config : Config.t) : bool :=
  if String.eqb (Session.userId session) (Session.selfId session) then true
  else
    let isPrivate := String.eqb (Session.channelId session) (Session.userId session) in
    if isPrivate && negb (Config.triggerPrivate config) then true
    else if negb isPrivate && negb (Config.triggerGroup config) then true
    else false.

(** What the middleware reads from its surroundings: the value of
    [await next()] (the empty string when nothing handled the message), the
    value of [Math.random() * 100], and the clock at its three readings. *)
Record Env := mkEnv {
  handled : string;
  sample : Q;
  todayAtCheck : string;
  nowAtSave : Z;
  todayAtUpdate : string
}.

(** The structural checks: the text that reaches the probabilistic gate. *)
Definition structuralContent (config : Config.t) (env : Env)
    (session : Session.t) : option string :=
  if Js.truthy (handled env) || shouldIgnoreMessage session config then None
  else if Js.truthy (Config.triggerPrefix config)
          && negb (Js.startsWith (Session.content session) (Config.triggerPrefix config))
  then None
  else
    let text :=
      if Js.truthy (Config.triggerPrefix config)
      then Js.trim (Js.substring (String.length (Config.triggerPrefix config))
                      (Session.content session))
      else Session.content session in
    if negb (Js.truthy text) then None else Some text.

(** [config.triggerRatio < 100 && Math.random() * 100 > config.triggerRatio] *)
Definition ratioRejects (config : Config.t) (env : Env) : bool :=
  (Config.triggerRatio config <? 100)
  && negb (Qle_bool (sample env) (inject_Z (Config.triggerRatio config))).

(** The text the gate lets through, if any. *)
Definition triggerGate (config : Config.t) (env : Env) (session : Session.t)
    : option string :=
  match structuralContent config env session with
  | None => None
  | Some text => if ratioRejects config env then None else Some text
  end.

Record Outcome := mkOutcome {
  database : Database.t;
  sent : list string;          (* what [session.send] and [sendQueued] sent *)
  markedHandled : bool;        (* [session._handled] *)
  returned : string            (* the value returned; empty for [undefined] *)
}.

Definition limitReached : string := "今日对话次数已达上限，请明天再来".
Definition thinking : string := "正在思考中...".

(** The middleware registered by [exports.apply]. Sending never fails here,
    so the outer [catch] is not entered. *)
Definition middleware (fuel : nat) (config : Config.t) (model : Model)
    (env : Env) (db : Database.t) (session : Session.t) : option Outcome :=
  match triggerGate config env session with
  | None =>
      Some (mkOutcome db [] false
              (if Js.truthy (handled env) || shouldIgnoreMessage session config
               then handled env else ""))
  | Some text =>
      let '(db, allowed) :=
        if usageEnabled config
        then checkUsageLimit db (Session.userId session) config (todayAtCheck env)
        else (db, true) in
      if negb allowed then Some (mkOutcome db [limitReached] true "")
      else
        let queued := if Config.showThinkingMessage config then [thinking] else [] in
        match messageHandler fuel config model (nowAtSave env) db session text with
        | None => None
        | Some (db, reply) =>
            if negb (Js.truthy reply) then Some (mkOutcome db queued false "")
            else
              let db :=
                if usageEnabled config
                then updateUsageCount db (Session.userId session) (todayAtUpdate env)
                else db in
              Some (mkOutcome db (queued ++ [reply]) true "")
        end
  end.

End Plugin.

(** ** Vocabulary of the properties *)

Module Props.

Import Database Plugin.

(** The configuration with the defaults of [exports.Config]; the API key is
    a placeholder. *)
Definition defaultConfig : Config.t :=
  Config.mk "openai" "sk-test" "https://api.openai.com/v1" "gpt-3.5-turbo"
    "你是一个有用的AI助手。" 10 (Some (7 # 10)%Q) 60 100 "" true false false ""
    (Some (UsageLimit.mk false 100 "00:00")).

Definition withContextSize (config : Config.t) (n : Z) : Config.t :=
  Config.mk (Config.modelType config) (Config.apiKey config)
    (Config.apiEndpoint config) (Config.modelName config)
    (Config.systemPrompt config) n (Config.temperature config)
    (Config.responseTimeout config) (Config.triggerRatio config)
    (Config.triggerPrefix config) (Config.triggerPrivate config)
    (Config.triggerGroup config) (Config.showThinkingMessage config)
    (Config.customModelAdapter config) (Config.usageLimit config).

Definition withResponseTimeout (config : Config.t) (seconds : Z) : Config.t :=
  Config.mk (Config.modelType config) (Config.apiKey config)
    (Config.apiEndpoint config) (Config.modelName config)
    (Config.systemPrompt config) (Config.contextSize config)
    (Config.temperature config) seconds (Config.triggerRatio config)
    (Config.triggerPrefix config) (Config.triggerPrivate config)
    (Config.triggerGroup config) (Config.showThinkingMessage config)
    (Config.customModelAdapter config) (Config.usageLimit config).

Definition withTriggerRatio (config : Config.t) (ratio : Z) : Config.t :=
  Config.mk (Config.modelType config) (Config.apiKey config)
    (Config.apiEndpoint config) (Config.modelName config)
    (Config.systemPrompt config) (Config.contextSize config)
    (Config.temperature config) (Config.responseTimeout config) ratio
    (Config.triggerPrefix config) (Config.triggerPrivate config)
    (Config.triggerGroup config) (Config.showThinkingMessage config)
    (Config.customModelAdapter config) (Config.usageLimit config).

Definition withUsageLimit (config : Config.t) (limit : UsageLimit.t) : Config.t :=
  Config.mk (Config.modelType config) (Config.apiKey config)
    (Config.apiEndpoint config) (Config.modelName config)
    (Config.systemPrompt config) (Config.contextSize config)
    (Config.temperature config) (Config.responseTimeout config)
    (Config.triggerRatio config)
    (Config.triggerPrefix config) (Config.triggerPrivate config)
    (Config.triggerGroup config) (Config.showThinkingMessage config)
    (Config.customModelAdapter config) (Some limit).

(** A private message from user [alice] to the bot. *)
Definition aliceSays (text : string) : Session.t :=
  Session.mk "alice" "bot" "alice" text.

Definition quietEnv (x : Q) : Env := mkEnv "" x "2024-05-01" 1714550000000 "2024-05-01".

(** A model that answers at once by repeating the last turn it was given. *)
Definition echoModel : Model :=
  fun msgs _ => Js.Settles 0 (Js.Fulfilled (content (List.last msgs (mkMessage "" "")))).

(** A model whose call is rejected at once with [error]. *)
Definition failingModel (error : Js.Error) : Model :=
  fun _ _ => Js.Settles 0 (Js.Rejected error).

(** A stored history made of whole exchanges: a user turn, then the reply. *)
Inductive Exchanges : list Message -> Prop :=
| Exchanges_nil : Exchanges []
| Exchanges_cons (question answer : string) (rest : list Message) :
    Exchanges rest ->
    Exchanges (userTurn question :: assistantTurn answer :: rest).

(** What the handler persists: nothing yet, or the system turn followed by
    whole exchanges. *)
Definition StoredShape (ctx : list Message) : Prop :=
  ctx = [] \/ exists prompt rest, ctx = systemTurn prompt :: rest /\ Exchanges rest.

(** A stored context within the cap of [contextSize]. *)
Definition Capped (contextSize : Z) (ctx : list Message) : Prop :=
  StoredShape ctx /\ Z.of_nat (length ctx) <= 2 * contextSize + 1.

(** The databases the plugin reaches from an empty store under [config]:
    by runs of the middleware and by the command that clears a context. *)
Inductive Reachable (config : Config.t) : Database.t -> Prop :=
| Reachable_empty : Reachable config Database.empty
| Reachable_message (fuel : nat) (model : Model) (env : Env)
    (db : Database.t) (session : Session.t) (out : Outcome) :
    Reachable config db ->
    middleware fuel config model env db session = Some out ->
    Reachable config (database out)
| Reachable_clear (db : Database.t) (session : Session.t) (now : Z) :
    Reachable config db ->
    Reachable config (clearCommand db session now).1.

(** The ways in which the raced model call fails, with the error caught. *)
Inductive Fails (p : Js.Promise string) (timeout : Z) : Js.Error -> Prop :=
| Fails_rejects (at_ms : Z) (error : Js.Error) :
    p = Js.Settles at_ms (Js.Rejected error) ->
    at_ms <= Js.timerDelay timeout ->
    Fails p timeout error
| Fails_timer_late (at_ms : Z) (how : Js.Settled string) :
    p = Js.Settles at_ms how ->
    Js.timerDelay timeout < at_ms ->
    Fails p timeout timeoutError
| Fails_timer_pending :
    p = Js.Pending ->
    Fails p timeout timeoutError.

(** The uses recorded for [userId] on the date [today]. *)
Definition usedOn (db : Database.t) (userId today : string) : Z :=
  match chatModelUsage db !! userId with
  | Some row => if String.eqb (lastResetDate row) today then dailyCount row else 0
  | None => 0
  end.

(** Whether the provider settles the request before [deadline] ms. *)
Definition answersBefore (x : Http.Exchange) (deadline : Z) : bool :=
  match x with
  | Http.RespondsAfter ms _ | Http.FailsAfter ms _ => ms <? deadline
  | Http.NeverSettles => false
  end.

(** The [generateResponse] of the three adapters of [lib/], each facing a
    provider that behaves as [x] whatever the request. *)
Definition builtinModels (openai : OpenAIAdapter.t) (claude : ClaudeAdapter.t)
    (gemini : GeminiAdapter.t) (x : Http.Exchange) : list Model :=
  [ OpenAIAdapter.generateResponse openai (fun _ => x);
    ClaudeAdapter.generateResponse claude (fun _ => x);
    GeminiAdapter.generateResponse gemini (fun _ => x) ].

Definition requestTimedOut : Js.Error := Js.newError "请求超时，请稍后再试".

End Props.

(** ** Loading and building the adapter ([loadModelAdapter], [exports.apply]) *)

Module Loader.

Inductive AdapterModule :=
| OpenAIModule
| ClaudeModule
| GeminiModule
| CustomModule (path : string).

(** [loadModelAdapter(ctx, config)]. The three files of [lib/] always load;
    [requireCustom path] is the error [require(path)] throws, if any. *)
Definition loadModelAdapter (requireCustom : string -> option Js.Error)
    (config : Config.t) : Js.Settled AdapterModule :=
  let attempt :=
    if String.eqb (Config.modelType config) "openai" then Js.Fulfilled OpenAIModule
    else if String.eqb (Config.modelType config) "claude" then Js.Fulfilled ClaudeModule
    else if String.eqb (Config.modelType config) "gemini" then Js.Fulfilled GeminiModule
    else if String.eqb (Config.modelType config) "custom" then
      if negb (Js.truthy (Config.customModelAdapter config))
      then Js.Rejected (Js.newError "使用自定义模型时必须提供适配器路径")
      else match requireCustom (Config.customModelAdapter config) with
           | Some error => Js.Rejected error
           | None => Js.Fulfilled (CustomModule (Config.customModelAdapter config))
           end
    else Js.Fulfilled OpenAIModule in
  match attempt with
  | Js.Fulfilled adapter => Js.Fulfilled adapter
  | Js.Rejected error =>
      Js.Rejected (Js.newError ("加载模型适配器失败: " +:+ Js.message error))
  end.

Inductive Instance :=
| OpenAIInstance (self : OpenAIAdapter.t)
| ClaudeInstance (self : ClaudeAdapter.t)
| GeminiInstance (self : GeminiAdapter.t)
| CustomInstance (path : string).

(** The first two statements of [exports.apply]: load the adapter, then
    [new ModelAdapter(ctx, config)]. [customNew path] is the error the
    constructor of the custom adapter throws, if any. *)
Definition startModel (requireCustom customNew : string -> option Js.Error)
    (config : Config.t) : Js.Settled Instance :=
  adapter ← loadModelAdapter requireCustom config;
  match adapter with
  | OpenAIModule => self ← OpenAIAdapter.new config; Js.Fulfilled (OpenAIInstance self)
  | ClaudeModule => self ← ClaudeAdapter.new config; Js.Fulfilled (ClaudeInstance self)
  | GeminiModule => self ← GeminiAdapter.new config; Js.Fulfilled (GeminiInstance self)
  | CustomModule path =>
      match customNew path with
      | Some error => Js.Rejected error
      | None => Js.Fulfilled (CustomInstance path)
      end
  end.

End Loader.

(** ** More vocabulary *)

Module MoreProps.

Import Database Plugin Props.

(** The roles alternate, starting with [expected], between [user] and [model]. *)
Fixpoint alternates (expected : string) (roles : list string) : bool :=
  match roles with
  | [] => true
  | r :: rest =>
      String.eqb r expected
      && alternates (if String.eqb expected "user" then "model" else "user") rest
  end.


(** The database and the verdict with which the middleware goes on after
    the test of the usage limit. *)
Definition afterLimitCheck (config : Config.t) (env : Env) (db : Database.t)
    (session : Session.t) : Database.t * bool :=
  if usageEnabled config
  then checkUsageLimit db (Session.userId session) config (todayAtCheck env)
  else (db, true).

Definition withApiKey (config : Config.t) (key : string) : Config.t :=
  Config.mk (Config.modelType config) key
    (Config.apiEndpoint config) (Config.modelName config)
    (Config.systemPrompt config) (Config.contextSize config)
    (Config.temperature config) (Config.responseTimeout config)
    (Config.triggerRatio config)
    (Config.triggerPrefix config) (Config.triggerPrivate config)
    (Config.triggerGroup config) (Config.showThinkingMessage config)
    (Config.customModelAdapter config) (Config.usageLimit config).

Definition withModelType (config : Config.t) (kind path : string) : Config.t :=
  Config.mk kind (Config.apiKey config)
    (Config.apiEndpoint config) (Config.modelName config)
    (Config.systemPrompt config) (Config.contextSize config)
    (Config.temperature config) (Config.responseTimeout config)
    (Config.triggerRatio config)
    (Config.triggerPrefix config) (Config.triggerPrivate config)
    (Config.triggerGroup config) (Config.showThinkingMessage config)
    path (Config.usageLimit config).

(** The test by which the adapters skip the system turns. *)
Definition notSystem (msg : Message) : bool := negb (String.eqb (role msg) "system").

(** A model that answers at once with [reply]. *)
Definition constantModel (reply : string) : Model :=
  fun _ _ => Js.Settles 0 (Js.Fulfilled reply).

(** A provider that answers an accepted request with [body] after [ms]. *)
Definition okAfter (ms : Z) (body : Js.Value) : Http.Exchange :=
  Http.RespondsAfter ms (Http.mkResponse true 200 "OK" (Js.Fulfilled body)).

End MoreProps.

(** Case analysis on the first integer comparison of the goal. *)
Ltac case_ltb :=
  match goal with
  | |- context [?a <? ?b] => destruct (Z.ltb_spec a b)
  end.

(** ** Properties of the adapters' message formats *)

Section Formats.

Import Props.

(** C6: for the input [{system, "S"}, {user, "hi"}] the Gemini
    [formatMessages] returns exactly three entries whose roles alternate
    from [user]: a user turn whose text contains "S", the [model]
    acknowledgment, and the user turn "hi". *)
Theorem gemini_format_system_then_user :
  let output :=
    GeminiAdapter.formatMessages [mkMessage "system" "S"; mkMessage "user" "hi"] in
  output =
    [ GeminiAdapter.mkContent "user"
        [GeminiAdapter.mkPart (GeminiAdapter.systemPrefix +:+ "S")];
      GeminiAdapter.mkContent "model"
        [GeminiAdapter.mkPart GeminiAdapter.acknowledgment];
      GeminiAdapter.mkContent "user" [GeminiAdapter.mkPart "hi"] ]
  /\ length output = 3%nat
  /\ List.map GeminiAdapter.grole output = ["user"; "model"; "user"]
  /\ Js.includes (GeminiAdapter.systemPrefix +:+ "S") "S" = true.
Proof. repeat split; reflexivity. Qed.

Lemma claude_foldRole_role (msg : Message) :
  role (ClaudeAdapter.foldRole msg) = "assistant"
  \/ role (ClaudeAdapter.foldRole msg) = "user".
Proof.
  unfold ClaudeAdapter.foldRole; simpl.
  destruct (String.eqb (role msg) "assistant"); auto.
Qed.

Lemma claude_foldRole_other (msg : Message) :
  role msg <> "assistant" ->
  ClaudeAdapter.foldRole msg = mkMessage "user" (content msg).
Proof.
  intros Hrole. unfold ClaudeAdapter.foldRole.
  destruct (String.eqb_spec (role msg) "assistant"); [contradiction | reflexivity].
Qed.

(** C7: for the input [{system,"S"}, {user,"a"}, {assistant,"b"}] the
    Anthropic [formatMessages] returns "S" as the system field and the two
    turns [{user,"a"}, {assistant,"b"}]; in general the turns returned only
    carry the roles [user] and [assistant], no turn returned comes from a
    system turn, and a turn whose role is neither [system] nor [assistant]
    is returned with the role [user]. *)
Theorem claude_format_splits_system :
  ClaudeAdapter.formatMessages
    [mkMessage "system" "S"; mkMessage "user" "a"; mkMessage "assistant" "b"]
  = ClaudeAdapter.mkFormatted "S" [mkMessage "user" "a"; mkMessage "assistant" "b"]
  /\ (forall msgs out,
        In out (ClaudeAdapter.messages (ClaudeAdapter.formatMessages msgs)) ->
        (role out = "user" \/ role out = "assistant")
        /\ exists msg, In msg msgs /\ role msg <> "system"
                       /\ content out = content msg)
  /\ (forall msgs msg,
        In msg msgs -> role msg <> "system" -> role msg <> "assistant" ->
        In (mkMessage "user" (content msg))
           (ClaudeAdapter.messages (ClaudeAdapter.formatMessages msgs))).
Proof.
  split; [reflexivity |]. split.
  - intros msgs out Hin. simpl in Hin.
    apply in_map_iff in Hin as (msg & <- & Hmsg).
    apply filter_In in Hmsg as [Hmsg Hrole]. split.
    + destruct (claude_foldRole_role msg); auto.
    + exists msg. repeat split; auto.
      intros Heq. rewrite Heq in Hrole. discriminate.
  - intros msgs msg Hin Hsys Hasst. simpl.
    apply in_map_iff. exists msg. split.
    + by apply claude_foldRole_other.
    + apply filter_In. split; [assumption |].
      destruct (String.eqb_spec (role msg) "system"); [contradiction | reflexivity].
Qed.

Lemma claude_format_splits_system_witness :
  In (mkMessage "user" "lookup result")
     (ClaudeAdapter.messages
        (ClaudeAdapter.formatMessages
           [mkMessage "system" "S"; mkMessage "tool" "lookup result"])).
Proof.
  apply (proj2 (proj2 claude_format_splits_system)
           [mkMessage "system" "S"; mkMessage "tool" "lookup result"]
           (mkMessage "tool" "lookup result")).
  - simpl. right. left. reflexivity.
  - simpl. discriminate.
  - simpl. discriminate.
Defined.

End Formats.

(** ** Properties of the context store and of the usage limiter *)

Section Store.

Import Database Plugin Props.

Lemma getUserContext_lookup (db : Database.t) (userId : string) :
  getUserContext db userId =
    match chatModelContext db !! userId with
    | Some row => default [] (context row)
    | None => []
    end.
Proof.
  unfold getUserContext, Database.get.
  destruct (chatModelContext db !! userId); reflexivity.
Qed.

(** C8: whether or not a record is stored for the user, clearing the context
    and then loading it returns the empty sequence; a stored record is kept,
    with an empty sequence of turns and the time of the clear. *)
Theorem clear_then_load_is_empty (db : Database.t) (userId : string) (now : Z) :
  getUserContext (clearUserContext db userId now) userId = []
  /\ (forall row,
        chatModelContext db !! userId = Some row ->
        chatModelContext (clearUserContext db userId now) !! userId
        = Some (mkContextRow (Some []) now)).
Proof.
  rewrite getUserContext_lookup. unfold clearUserContext, Database.set.
  destruct (chatModelContext db !! userId) as [row |] eqn:Hrow; simpl.
  - rewrite lookup_insert_eq. split; [reflexivity |].
    intros row' _. reflexivity.
  - rewrite Hrow. split; [reflexivity |]. intros row' [=].
Qed.

Lemma clear_then_load_is_empty_witness :
  let db := saveUserContext Database.empty "alice"
              [systemTurn "P"; userTurn "hi"; assistantTurn "hello"] 1 in
  chatModelContext (clearUserContext db "alice" 2) !! "alice"
  = Some (mkContextRow (Some []) 2).
Proof.
  intros db.
  apply (proj2 (clear_then_load_is_empty db "alice" 2)
           (mkContextRow
              (Some [systemTurn "P"; userTurn "hi"; assistantTurn "hello"]) 1)).
  vm_compute. reflexivity.
Defined.

(** Clearing creates no record for a user who has none. *)
Lemma clear_without_record (db : Database.t) (userId : string) (now : Z) :
  chatModelContext db !! userId = None ->
  clearUserContext db userId now = Database.mk (chatModelContext db) (chatModelUsage db).
Proof.
  intros Hnone. unfold clearUserContext, Database.set. by rewrite Hnone.
Qed.

(** The row [updateUsageCount] leaves for the user. *)
Lemma updateUsageCount_lookup (db : Database.t) (userId today : string) :
  chatModelUsage (updateUsageCount db userId today) !! userId =
    Some match chatModelUsage db !! userId with
         | None => mkUsageRow 1 today
         | Some row =>
             if String.eqb (lastResetDate row) today
             then mkUsageRow (dailyCount row + 1) (lastResetDate row)
             else mkUsageRow 1 today
         end.
Proof.
  unfold updateUsageCount, Database.get, Database.set, Database.create.
  destruct (chatModelUsage db !! userId) as [row |] eqn:Hrow; simpl.
  - rewrite lookup_insert_eq.
    destruct (String.eqb (lastResetDate row) today); reflexivity.
  - apply lookup_insert_eq.
Qed.

Lemma updateUsageCount_context (db : Database.t) (userId today : string) :
  chatModelContext (updateUsageCount db userId today) = chatModelContext db.
Proof.
  unfold updateUsageCount, Database.get, Database.set.
  destruct (chatModelUsage db !! userId); reflexivity.
Qed.

(** Three uses recorded on one date, from no record, leave the count 3. *)
Lemma three_uses_recorded (db : Database.t) (userId today : string) :
  chatModelUsage db !! userId = None ->
  chatModelUsage
    (updateUsageCount (updateUsageCount (updateUsageCount db userId today)
                         userId today) userId today) !! userId
  = Some (mkUsageRow 3 today).
Proof.
  intros Hnone. rewrite !updateUsageCount_lookup, Hnone. simpl.
  rewrite String.eqb_refl. simpl. rewrite String.eqb_refl. reflexivity.
Qed.

(** C5: with [maxMessagesPerUser = 3] and a record showing three uses on the
    current date, [checkUsageLimit] answers not-allowed and leaves the store
    as it is; on another date (the following one) it answers allowed and
    sets the stored count to 0 with the new date, and the increment that
    follows then stores the count 1. *)
Theorem usage_limit_three_then_rollover
    (db : Database.t) (userId today : string) (config : Config.t)
    (limit : UsageLimit.t) :
  Config.usageLimit config = Some limit ->
  UsageLimit.maxMessagesPerUser limit = 3 ->
  chatModelUsage db !! userId = Some (mkUsageRow 3 today) ->
  checkUsageLimit db userId config today = (db, false)
  /\ forall tomorrow,
       tomorrow <> today ->
       let '(db', allowed) := checkUsageLimit db userId config tomorrow in
       allowed = true
       /\ chatModelUsage db' !! userId = Some (mkUsageRow 0 tomorrow)
       /\ chatModelContext db' = chatModelContext db
       /\ chatModelUsage (updateUsageCount db' userId tomorrow) !! userId
          = Some (mkUsageRow 1 tomorrow).
Proof.
  intros Hlimit Hthree Hrow.
  assert (Hmax : maxPerDay config = 3).
  { unfold maxPerDay. by rewrite Hlimit, Hthree. }
  split.
  - unfold checkUsageLimit, Database.get. rewrite Hrow. simpl.
    rewrite String.eqb_refl. simpl. rewrite Hmax. reflexivity.
  - intros tomorrow Hne.
    unfold checkUsageLimit, Database.get, Database.set. rewrite Hrow. simpl.
    destruct (String.eqb_spec today tomorrow) as [Heq | _]; [congruence |].
    simpl. repeat split.
    + apply lookup_insert_eq.
    + rewrite updateUsageCount_lookup. simpl. rewrite lookup_insert_eq. simpl.
      rewrite String.eqb_refl. reflexivity.
Qed.

End Store.

(** ** Properties of the handler and of the middleware *)

Section Handler.

Import Database Plugin Props.

Lemma usage_limit_three_then_rollover_witness :
  let db := Database.mk ∅ {[ "alice" := mkUsageRow 3 "2024-05-01" ]} in
  let config := withUsageLimit defaultConfig (UsageLimit.mk true 3 "00:00") in
  checkUsageLimit db "alice" config "2024-05-01" = (db, false).
Proof.
  intros db config.
  apply (usage_limit_three_then_rollover db "alice" "2024-05-01" config
           (UsageLimit.mk true 3 "00:00")).
  - reflexivity.
  - reflexivity.
  - vm_compute. reflexivity.
Defined.

Lemma startsWith_refl (s : string) : Js.startsWith s s = true.
Proof.
  induction s as [| c s IH]; simpl; [reflexivity |].
  by rewrite Ascii.eqb_refl.
Qed.

Lemma includes_suffix (prefix s : string) : Js.includes (prefix +:+ s) s = true.
Proof.
  induction prefix as [| c prefix IH]; simpl.
  - destruct s; simpl; [reflexivity |].
    by rewrite Ascii.eqb_refl, startsWith_refl.
  - rewrite IH.
    match goal with |- (if ?b then _ else _) = _ => destruct b end; reflexivity.
Qed.

Lemma splice_1_2_length (l : list Message) :
  (2 <= length l)%nat -> (length (Js.splice_1_2 l).1 < length l)%nat.
Proof.
  destruct l as [| x rest]; simpl; [lia |].
  intros Hlen. rewrite length_drop. lia.
Qed.

(** With a cap of at least one entry the loop ends, within as many
    iterations as the context has entries. *)
Lemma limitContext_total (fuel : nat) (contextSize : Z) (l : list Message) :
  0 <= contextSize -> (length l <= fuel)%nat ->
  exists kept, limitContext fuel contextSize l = Some kept
               /\ Z.of_nat (length kept) <= contextSize * 2 + 1.
Proof.
  intros Hsize. revert l.
  induction fuel as [| fuel IH]; intros l Hfuel; simpl.
  - destruct (Z.ltb_spec (contextSize * 2 + 1) (Z.of_nat (length l))); [lia |].
    eauto.
  - destruct (Z.ltb_spec (contextSize * 2 + 1) (Z.of_nat (length l))); [| eauto].
    apply IH. pose proof (splice_1_2_length l). lia.
Qed.

(** With a negative [contextSize] the loop never ends. *)
Lemma limitContext_diverges (fuel : nat) (contextSize : Z) (l : list Message) :
  contextSize < 0 -> limitContext fuel contextSize l = None.
Proof.
  intros Hneg. revert l. induction fuel as [| fuel IH]; intros l; simpl.
  - destruct (Z.ltb_spec (contextSize * 2 + 1) (Z.of_nat (length l))); [done | lia].
  - destruct (Z.ltb_spec (contextSize * 2 + 1) (Z.of_nat (length l))); [apply IH | lia].
Qed.

Lemma prepareContext_total (fuel : nat) (config : Config.t) (db : Database.t)
    (session : Session.t) (text : string) :
  0 <= Config.contextSize config ->
  (length (getUserContext db (Session.userId session)) < fuel)%nat ->
  exists ctx, prepareContext fuel config db session text = Some ctx.
Proof.
  intros Hsize Hfuel. unfold prepareContext.
  destruct (limitContext_total fuel (Config.contextSize config)
              (getUserContext db (Session.userId session) ++ [userTurn text]))
    as (kept & -> & _); [assumption | | eauto].
  rewrite length_app. simpl. lia.
Qed.

Lemma race_fails (p : Js.Promise string) (timeout : Z) (error : Js.Error) :
  Fails p timeout error -> race p timeout = Js.Rejected error.
Proof.
  intros [at_ms e -> Hle | at_ms how -> Hlt | ->]; simpl; [| | reflexivity].
  - destruct (Z.leb_spec at_ms (Js.timerDelay timeout)); [reflexivity | lia].
  - destruct (Z.leb_spec at_ms (Js.timerDelay timeout)); [lia | reflexivity].
Qed.

(** C2: when the call to [generateResponse] is rejected, or the timer of the
    race fires first, the handler does not save: it returns the database it
    was given, and its reply is the apology that embeds the message of the
    error. (The handler reaches the model call whenever [contextSize] is not
    negative.) *)
Theorem handler_failure_skips_save (fuel : nat) (config : Config.t)
    (model : Model) (now : Z) (db : Database.t) (session : Session.t)
    (text : string) :
  0 <= Config.contextSize config ->
  (length (getUserContext db (Session.userId session)) < fuel)%nat ->
  exists ctx,
    prepareContext fuel config db session text = Some ctx
    /\ forall error,
         Fails (model ctx session) (handlerTimeout config) error ->
         messageHandler fuel config model now db session text
         = Some (db, "抱歉，生成回复时发生错误: " +:+ Js.message error)
         /\ Js.includes ("抱歉，生成回复时发生错误: " +:+ Js.message error)
              (Js.message error) = true.
Proof.
  intros Hsize Hfuel.
  destruct (prepareContext_total fuel config db session text Hsize Hfuel)
    as [ctx Hctx].
  exists ctx. split; [assumption |].
  intros error Hfails. split; [| apply includes_suffix].
  unfold messageHandler. rewrite Hctx.
  by rewrite (race_fails _ _ _ Hfails).
Qed.

Lemma handler_failure_skips_save_witness :
  messageHandler 5 defaultConfig (failingModel (Js.newError "API配额已用尽")) 7
    Database.empty (aliceSays "hi") "hi"
  = Some (Database.empty, "抱歉，生成回复时发生错误: API配额已用尽").
Proof.
  destruct (handler_failure_skips_save 5 defaultConfig
              (failingModel (Js.newError "API配额已用尽")) 7
              Database.empty (aliceSays "hi") "hi")
    as (ctx & _ & Hfail).
  - simpl. lia.
  - vm_compute. lia.
  - apply (Hfail (Js.newError "API配额已用尽")).
    apply (Fails_rejects _ _ 0 (Js.newError "API配额已用尽")).
    + reflexivity.
    + vm_compute. discriminate.
Defined.

Lemma usedOn_update (db : Database.t) (userId today : string) :
  usedOn (updateUsageCount db userId today) userId today
  = usedOn db userId today + 1.
Proof.
  unfold usedOn. rewrite updateUsageCount_lookup.
  destruct (chatModelUsage db !! userId) as [row |]; simpl.
  - destruct (String.eqb (lastResetDate row) today) eqn:Hdate; simpl.
    + by rewrite Hdate.
    + by rewrite String.eqb_refl.
  - by rewrite String.eqb_refl.
Qed.

(** C9: with the usage limit enabled, a turn that passes the gate and the
    limit and whose model call fails still has its reply (the apology, which
    is not empty) sent and the use recorded: the middleware ends with
    [updateUsageCount] applied, which raises the count of the day by one. *)
Theorem failed_call_consumes_quota (fuel : nat) (config : Config.t)
    (model : Model) (env : Env) (db db1 : Database.t) (session : Session.t)
    (text : string) (ctx : list Message) (error : Js.Error) :
  usageEnabled config = true ->
  triggerGate config env session = Some text ->
  checkUsageLimit db (Session.userId session) config (todayAtCheck env)
  = (db1, true) ->
  prepareContext fuel config db1 session text = Some ctx ->
  Fails (model ctx session) (handlerTimeout config) error ->
  let db2 := updateUsageCount db1 (Session.userId session) (todayAtUpdate env) in
  middleware fuel config model env db session
  = Some (mkOutcome db2
            ((if Config.showThinkingMessage config then [thinking] else [])
             ++ [apology error])
            true "")
  /\ Js.truthy (apology error) = true
  /\ usedOn db2 (Session.userId session) (todayAtUpdate env)
     = usedOn db1 (Session.userId session) (todayAtUpdate env) + 1.
Proof.
  intros Henabled Hgate Hcheck Hctx Hfails db2. split; [| split].
  - unfold middleware. rewrite Hgate, Henabled, Hcheck. simpl.
    unfold messageHandler. rewrite Hctx, (race_fails _ _ _ Hfails).
    reflexivity.
  - reflexivity.
  - apply usedOn_update.
Qed.

Lemma failed_call_consumes_quota_witness :
  let config := withUsageLimit defaultConfig (UsageLimit.mk true 3 "00:00") in
  let db := Database.mk ∅ {[ "alice" := mkUsageRow 2 "2024-05-01" ]} in
  middleware 5 config (failingModel (Js.newError "请求超时，请稍后再试"))
    (quietEnv 50) db (aliceSays "hi")
  = Some (mkOutcome
            (Database.mk ∅ {[ "alice" := mkUsageRow 3 "2024-05-01" ]})
            ["抱歉，生成回复时发生错误: 请求超时，请稍后再试"] true "").
Proof.
  intros config db.
  refine (eq_trans
    (proj1 (failed_call_consumes_quota 5 config
              (failingModel (Js.newError "请求超时，请稍后再试"))
              (quietEnv 50) db db (aliceSays "hi") "hi"
              [systemTurn (Config.systemPrompt config); userTurn "hi"]
              (Js.newError "请求超时，请稍后再试") _ _ _ _ _)) _).
  - reflexivity.
  - vm_compute. reflexivity.
  - vm_compute. reflexivity.
  - vm_compute. reflexivity.
  - apply (Fails_rejects _ _ 0 (Js.newError "请求超时，请稍后再试")).
    + reflexivity.
    + vm_compute. discriminate.
  - vm_compute. reflexivity.
Defined.

End Handler.

(** ** Properties of the trigger gate *)

Section Gate.

Import Database Plugin Props.

Lemma structuralContent_not_ignored (config : Config.t) (env : Env)
    (session : Session.t) (text : string) :
  structuralContent config env session = Some text ->
  Js.truthy (handled env) || shouldIgnoreMessage session config = false.
Proof.
  unfold structuralContent.
  destruct (Js.truthy (handled env) || shouldIgnoreMessage session config);
    [discriminate | reflexivity].
Qed.

Lemma ratioRejects_zero (config : Config.t) (env : Env) :
  Config.triggerRatio config = 0 -> (0 < sample env)%Q ->
  ratioRejects config env = true.
Proof.
  intros Hratio Hpos. unfold ratioRejects. rewrite Hratio. simpl.
  destruct (Qle_bool (sample env) (inject_Z 0)) eqn:Hle; [| reflexivity].
  apply Qle_bool_iff in Hle. exfalso. by apply (Qlt_not_le _ _ Hpos).
Qed.

Lemma ratioRejects_hundred (config : Config.t) (env : Env) :
  Config.triggerRatio config = 100 -> ratioRejects config env = false.
Proof. intros Hratio. unfold ratioRejects. by rewrite Hratio. Qed.

(** C3, at the sample 0: with [triggerRatio = 0] a message that passes the
    structural checks is let through when [Math.random() * 100] is 0, a
    value of the range [0, 100), and the model's reply is sent. *)
Lemma gate_ratio_zero_accepts_sample_zero :
  Config.triggerRatio (withTriggerRatio defaultConfig 0) = 0
  /\ (0 <= sample (quietEnv 0))%Q /\ (sample (quietEnv 0) < 100)%Q
  /\ structuralContent (withTriggerRatio defaultConfig 0) (quietEnv 0)
       (aliceSays "hi") = Some "hi"
  /\ triggerGate (withTriggerRatio defaultConfig 0) (quietEnv 0)
       (aliceSays "hi") = Some "hi"
  /\ sent <$> middleware 5 (withTriggerRatio defaultConfig 0) echoModel
                (quietEnv 0) Database.empty (aliceSays "hi")
     = Some ["hi"].
Proof. repeat split; vm_compute; congruence. Qed.

(** C3, amended: for a message that passes the structural checks, with
    [triggerRatio = 0] the gate rejects for every sample strictly between 0
    and 100, and the middleware then sends nothing and leaves the database
    as it is; with [triggerRatio = 100] the gate lets the message through
    whatever the sample. *)
Theorem gate_ratio_extremes (config : Config.t) (env : Env)
    (session : Session.t) (text : string) :
  structuralContent config env session = Some text ->
  (Config.triggerRatio config = 0 ->
   (0 < sample env)%Q -> (sample env < 100)%Q ->
   triggerGate config env session = None
   /\ forall fuel model db,
        middleware fuel config model env db session
        = Some (mkOutcome db [] false ""))
  /\ (Config.triggerRatio config = 100 ->
      triggerGate config env session = Some text).
Proof.
  intros Hstruct. split.
  - intros Hratio Hpos _.
    assert (Hgate : triggerGate config env session = None).
    { unfold triggerGate. by rewrite Hstruct, ratioRejects_zero. }
    split; [assumption |].
    intros fuel model db. unfold middleware. rewrite Hgate.
    by rewrite (structuralContent_not_ignored _ _ _ _ Hstruct).
  - intros Hratio. unfold triggerGate.
    by rewrite Hstruct, ratioRejects_hundred.
Qed.

Lemma gate_ratio_extremes_witness :
  triggerGate (withTriggerRatio defaultConfig 0) (quietEnv (1 # 2))
    (aliceSays "hi") = None
  /\ triggerGate (withTriggerRatio defaultConfig 100) (quietEnv (999 # 10))
       (aliceSays "hi") = Some "hi".
Proof.
  split.
  - apply (proj1 (gate_ratio_extremes (withTriggerRatio defaultConfig 0)
                    (quietEnv (1 # 2)) (aliceSays "hi") "hi" eq_refl)).
    + reflexivity.
    + reflexivity.
    + reflexivity.
  - apply (proj2 (gate_ratio_extremes (withTriggerRatio defaultConfig 100)
                    (quietEnv (999 # 10)) (aliceSays "hi") "hi" eq_refl)).
    reflexivity.
Defined.

End Gate.

(** ** The blocked finish reason of Gemini *)

Section Safety.

Import Props.

Lemma gemini_classify_invalid :
  GeminiAdapter.classify (Js.Rejected invalidResponse) = Js.Rejected invalidResponse.
Proof. reflexivity. Qed.

(** A blocked candidate that comes with a body ([content.parts]) is turned
    into the fixed text. *)
Lemma gemini_blocked_with_content (status : Z) (statusText : string)
    (top fields body : list (string * Js.Value)) (others : list Js.Value) :
  Js.lookupField "candidates" top = Js.Arr (Js.Obj fields :: others) ->
  Js.lookupField "content" fields = Js.Obj body ->
  Js.truthyValue (Js.lookupField "parts" body) = true ->
  Js.lookupField "finishReason" fields = Js.Str "SAFETY" ->
  GeminiAdapter.classify
    (GeminiAdapter.readResponse
       (Js.Fulfilled (Http.mkResponse true status statusText
                        (Js.Fulfilled (Js.Obj top)))))
  = Js.Fulfilled GeminiAdapter.blockedText.
Proof.
  intros Hcandidates Hcontent Hparts Hreason.
  unfold GeminiAdapter.readResponse. simpl.
  rewrite Hcandidates. simpl. rewrite Hcontent. simpl.
  rewrite Hparts. simpl. rewrite Hreason. reflexivity.
Qed.

(** C4, on the code: a payload whose first candidate carries the finish
    reason [SAFETY] but no [content] (the candidate was blocked before any
    text was produced) does not reach the test of the finish reason: the
    check of the shape comes first and [generateResponse] is rejected with
    the invalid-response error. *)
Theorem gemini_blocked_without_content_is_thrown (self : GeminiAdapter.t)
    (msgs : list Message) (session : Session.t) (ms status : Z)
    (statusText : string) (top fields : list (string * Js.Value))
    (others : list Js.Value) :
  ms < GeminiAdapter.timeout ->
  Js.lookupField "candidates" top = Js.Arr (Js.Obj fields :: others) ->
  Js.lookupField "finishReason" fields = Js.Str "SAFETY" ->
  Js.truthyValue (Js.lookupField "content" fields) = false ->
  GeminiAdapter.generateResponse self
    (fun _ => Http.RespondsAfter ms
                (Http.mkResponse true status statusText
                   (Js.Fulfilled (Js.Obj top))))
    msgs session
  = Js.Settles ms (Js.Rejected (Js.newError "收到无效的API响应")).
Proof.
  intros Hms Hcandidates _ Hcontent.
  unfold GeminiAdapter.generateResponse, Http.fetchWithAbort.
  change (Js.timerDelay GeminiAdapter.timeout) with GeminiAdapter.timeout.
  destruct (Z.ltb_spec ms GeminiAdapter.timeout); [| lia].
  unfold GeminiAdapter.readResponse. simpl.
  rewrite Hcandidates. simpl. rewrite Hcontent. reflexivity.
Qed.

Lemma gemini_blocked_without_content_is_thrown_witness :
  GeminiAdapter.generateResponse
    (GeminiAdapter.mk "key" "https://generativelanguage.googleapis.com/v1beta"
       "gemini-pro" (7 # 10)%Q)
    (fun _ => Http.RespondsAfter 800
                (Http.mkResponse true 200 "OK"
                   (Js.Fulfilled
                      (Js.Obj [("candidates",
                                Js.Arr [Js.Obj [("finishReason", Js.Str "SAFETY");
                                                ("index", Js.Num 0)]])]))))
    [mkMessage "system" "S"; mkMessage "user" "hi"] (aliceSays "hi")
  = Js.Settles 800 (Js.Rejected (Js.newError "收到无效的API响应")).
Proof.
  apply (gemini_blocked_without_content_is_thrown _ _ _ 800 200 "OK"
           [("candidates",
             Js.Arr [Js.Obj [("finishReason", Js.Str "SAFETY");
                             ("index", Js.Num 0)]])]
           [("finishReason", Js.Str "SAFETY"); ("index", Js.Num 0)] []).
  - reflexivity.
  - reflexivity.
  - reflexivity.
  - reflexivity.
Defined.

End Safety.

(** ** The cap on the stored context *)

Section Cap.

Import Database Plugin Props.

Lemma limitContext_unfold (fuel : nat) (contextSize : Z) (l : list Message) :
  limitContext fuel contextSize l =
    if contextSize * 2 + 1 <? Z.of_nat (length l) then
      match fuel with
      | O => None
      | S fuel' => limitContext fuel' contextSize (Js.splice_1_2 l).1
      end
    else Some l.
Proof. destruct fuel; reflexivity. Qed.

Lemma Exchanges_app (a b : list Message) :
  Exchanges a -> Exchanges b -> Exchanges (a ++ b).
Proof.
  induction 1 as [| question answer rest _ IH]; intros Hb; simpl;
    [assumption |].
  constructor. by apply IH.
Qed.

Lemma Exchanges_even (l : list Message) :
  Exchanges l -> exists k : nat, length l = (2 * k)%nat.
Proof.
  induction 1 as [| question answer rest _ [k Hk]].
  - by exists 0%nat.
  - exists (S k). simpl. lia.
Qed.

Lemma Exchanges_last (text response : string) :
  Exchanges [userTurn text; assistantTurn response].
Proof. repeat constructor. Qed.

(** On the system turn followed by whole exchanges and the new user turn,
    the loop evicts whole exchanges from the front of the history. *)
Lemma limitContext_exchanges (contextSize : Z) (hist : list Message) :
  1 <= contextSize -> Exchanges hist ->
  forall (fuel : nat) (first final : Message),
    (length hist <= fuel)%nat ->
    exists evicted kept,
      hist = evicted ++ kept /\ Exchanges evicted /\ Exchanges kept
      /\ limitContext fuel contextSize (first :: hist ++ [final])
         = Some (first :: kept ++ [final])
      /\ Z.of_nat (length kept) + 2 <= contextSize * 2 + 1.
Proof.
  intros Hsize. induction 1 as [| question answer rest Hrest IH];
    intros fuel first final Hfuel.
  - exists [], []. repeat split; try constructor.
    + rewrite limitContext_unfold. simpl length.
      case_ltb; [lia | reflexivity].
    + simpl. lia.
  - rewrite limitContext_unfold.
    destruct (Z.ltb_spec (contextSize * 2 + 1)
                (Z.of_nat (length (first :: (userTurn question
                    :: assistantTurn answer :: rest) ++ [final]))))
      as [Hover | Hfits].
    + destruct fuel as [| fuel]; [simpl in Hfuel; lia |].
      destruct (IH fuel first final) as (evicted & kept & -> & Hev & Hkept & Hrun & Hlen).
      { simpl in Hfuel. lia. }
      exists (userTurn question :: assistantTurn answer :: evicted), kept.
      repeat split; try assumption.
      constructor. assumption.
    + exists [], (userTurn question :: assistantTurn answer :: rest).
      repeat split; try constructor; try assumption.
      simpl in Hfits |- *. rewrite length_app in Hfits. simpl in Hfits. lia.
Qed.

Lemma getUserContext_save (db : Database.t) (userId : string)
    (ctx : list Message) (now : Z) :
  getUserContext (saveUserContext db userId ctx now) userId = ctx.
Proof.
  rewrite getUserContext_lookup. unfold saveUserContext, Database.set, Database.create.
  destruct (chatModelContext db !! userId); simpl; by rewrite lookup_insert_eq.
Qed.

Lemma getUserContext_save_other (db : Database.t) (userId other : string)
    (ctx : list Message) (now : Z) :
  other <> userId ->
  getUserContext (saveUserContext db userId ctx now) other = getUserContext db other.
Proof.
  intros Hne. rewrite !getUserContext_lookup.
  unfold saveUserContext, Database.set, Database.create.
  destruct (chatModelContext db !! userId); simpl;
    by rewrite lookup_insert_ne.
Qed.

(** The cap holds for every [contextSize] of at least 1: from a stored
    context of the shape the handler persists, a successful turn stores the
    system turn, the exchanges kept and the new exchange, at most
    [2 * contextSize + 1] entries; what the cap removed is a run of whole
    exchanges, taken right after the system turn. *)
Lemma handler_success_keeps_cap (fuel : nat) (config : Config.t)
    (model : Model) (now : Z) (db : Database.t) (session : Session.t)
    (text : string) :
  1 <= Config.contextSize config ->
  StoredShape (getUserContext db (Session.userId session)) ->
  (length (getUserContext db (Session.userId session)) < fuel)%nat ->
  exists ctx,
    prepareContext fuel config db session text = Some ctx
    /\ forall response,
         race (model ctx session) (handlerTimeout config) = Js.Fulfilled response ->
         exists db' evicted kept,
           messageHandler fuel config model now db session text = Some (db', response)
           /\ tail (getUserContext db (Session.userId session)) = evicted ++ kept
           /\ Exchanges evicted
           /\ getUserContext db' (Session.userId session)
              = systemTurn (Config.systemPrompt config)
                  :: kept ++ [userTurn text; assistantTurn response]
           /\ Z.of_nat (length (getUserContext db' (Session.userId session)))
              <= 2 * Config.contextSize config + 1
           /\ StoredShape (getUserContext db' (Session.userId session))
           /\ forall other, other <> Session.userId session ->
                getUserContext db' other = getUserContext db other.
Proof.
  intros Hsize Hshape Hfuel.
  unfold messageHandler, prepareContext.
  destruct Hshape as [Hempty | (prompt & hist & Hstored & Hhist)].
  - rewrite Hempty. simpl. rewrite limitContext_unfold. simpl length.
    case_ltb; [lia |]. simpl.
    eexists. split; [reflexivity |].
    intros response ->.
    exists (saveUserContext db (Session.userId session)
              ([systemTurn (Config.systemPrompt config); userTurn text]
               ++ [assistantTurn response]) now), [], [].
    rewrite getUserContext_save.
    split; [reflexivity |]. split; [reflexivity |].
    split; [constructor |]. split; [reflexivity |].
    split; [simpl; lia |]. split.
    + right. exists (Config.systemPrompt config),
        [userTurn text; assistantTurn response].
      split; [reflexivity | apply Exchanges_last].
    + intros other Hother. by apply getUserContext_save_other.
  - rewrite Hstored in Hfuel |- *. simpl in Hfuel.
    destruct (limitContext_exchanges (Config.contextSize config) hist Hsize Hhist
                fuel (systemTurn prompt) (userTurn text))
      as (evicted & kept & -> & Hev & Hkept & Hrun & Hlen); [lia |].
    change ((systemTurn prompt :: evicted ++ kept) ++ [userTurn text])
      with (systemTurn prompt :: (evicted ++ kept) ++ [userTurn text]).
    rewrite Hrun. simpl.
    eexists. split; [reflexivity |].
    intros response ->.
    eexists _, evicted, kept.
    split; [reflexivity |]. rewrite getUserContext_save. simpl.
    rewrite <- app_assoc. simpl.
    split; [reflexivity |]. split; [assumption |].
    split; [reflexivity |]. split; [| split].
    + destruct (Exchanges_even kept Hkept) as [k Hk].
      rewrite length_app. simpl. lia.
    + right. exists (Config.systemPrompt config),
        (kept ++ [userTurn text; assistantTurn response]).
      split; [reflexivity |].
      apply Exchanges_app; [assumption | apply Exchanges_last].
    + intros other Hother. by apply getUserContext_save_other.
Qed.

Lemma limitContext_more_fuel (fuel fuel' : nat) (contextSize : Z)
    (l kept : list Message) :
  limitContext fuel contextSize l = Some kept -> (fuel <= fuel')%nat ->
  limitContext fuel' contextSize l = Some kept.
Proof.
  revert fuel' l. induction fuel as [| fuel IH]; intros fuel' l;
    rewrite (limitContext_unfold fuel'); simpl; case_ltb; try done.
  intros Hrun Hle. destruct fuel' as [| fuel']; [lia |].
  apply IH; [assumption | lia].
Qed.

Lemma messageHandler_more_fuel (fuel fuel' : nat) (config : Config.t)
    (model : Model) (now : Z) (db : Database.t) (session : Session.t)
    (text : string) (result : Database.t * string) :
  messageHandler fuel config model now db session text = Some result ->
  (fuel <= fuel')%nat ->
  messageHandler fuel' config model now db session text = Some result.
Proof.
  unfold messageHandler, prepareContext. intros Hrun Hle.
  destruct (limitContext fuel _ _) as [kept |] eqn:Hkept; [| discriminate].
  by rewrite (limitContext_more_fuel _ _ _ _ _ Hkept Hle).
Qed.

Lemma getUserContext_same_table (db db' : Database.t) (userId : string) :
  chatModelContext db' = chatModelContext db ->
  getUserContext db' userId = getUserContext db userId.
Proof. intros Heq. unfold getUserContext. by rewrite Heq. Qed.

Lemma checkUsageLimit_context (db : Database.t) (userId today : string)
    (config : Config.t) :
  chatModelContext (checkUsageLimit db userId config today).1 = chatModelContext db.
Proof.
  unfold checkUsageLimit, Database.get, Database.set.
  destruct (chatModelUsage db !! userId) as [row |]; simpl; [| reflexivity].
  destruct (String.eqb (lastResetDate row) today); reflexivity.
Qed.

(** A run of the handler keeps every stored context within the cap. *)
Lemma messageHandler_keeps_capped (fuel : nat) (config : Config.t)
    (model : Model) (now : Z) (db db' : Database.t) (session : Session.t)
    (text reply : string) :
  1 <= Config.contextSize config ->
  (forall userId, Capped (Config.contextSize config) (getUserContext db userId)) ->
  messageHandler fuel config model now db session text = Some (db', reply) ->
  forall userId, Capped (Config.contextSize config) (getUserContext db' userId).
Proof.
  intros Hsize Hinv Hrun userId.
  set (enough := Nat.max fuel (S (length (getUserContext db (Session.userId session))))).
  apply (messageHandler_more_fuel fuel enough) in Hrun; [| lia].
  destruct (handler_success_keeps_cap enough config model now db session text
              Hsize (proj1 (Hinv (Session.userId session))))
    as (ctx & Hctx & Hsuccess); [lia |].
  unfold messageHandler in Hrun, Hsuccess. rewrite Hctx in Hrun, Hsuccess.
  destruct (race (model ctx session) (handlerTimeout config))
    as [response | error] eqn:Hrace.
  - destruct (Hsuccess response eq_refl)
      as (db2 & evicted & kept & Hsame & _ & _ & _ & Hlen & Hshape & Hothers).
    rewrite Hsame in Hrun. injection Hrun as <- _.
    destruct (decide (userId = Session.userId session)) as [-> | Hne].
    + split; assumption.
    + rewrite (Hothers userId Hne). apply Hinv.
  - injection Hrun as <- _. apply Hinv.
Qed.

(** For every [contextSize] of at least 1, after any number of turns and
    clears every stored context is empty or starts with the system turn
    followed by whole exchanges, and has at most [2 * contextSize + 1]
    entries. *)
Lemma reachable_contexts_capped (config : Config.t) (db : Database.t) :
  1 <= Config.contextSize config ->
  Reachable config db ->
  forall userId, Capped (Config.contextSize config) (getUserContext db userId).
Proof.
  intros Hsize. induction 1 as [| fuel model env db session out _ IH Hrun
                                 | db session now _ IH]; intros userId.
  - rewrite getUserContext_lookup. simpl. rewrite lookup_empty.
    split; [by left | simpl; lia].
  - revert userId. unfold middleware in Hrun.
    destruct (triggerGate config env session) as [text |];
      [| injection Hrun as <-; exact IH].
    set (checked := if usageEnabled config
                    then checkUsageLimit db (Session.userId session) config
                           (todayAtCheck env)
                    else (db, true)) in Hrun.
    assert (Hchecked : chatModelContext checked.1 = chatModelContext db).
    { unfold checked. destruct (usageEnabled config); [| reflexivity].
      apply checkUsageLimit_context. }
    destruct checked as [db1 allowed]. simpl in Hchecked.
    assert (IH1 : forall userId,
               Capped (Config.contextSize config) (getUserContext db1 userId)).
    { intros userId. rewrite (getUserContext_same_table db db1 userId Hchecked).
      apply IH. }
    destruct allowed; simpl in Hrun; [| injection Hrun as <-; exact IH1].
    destruct (messageHandler fuel config model (nowAtSave env) db1 session text)
      as [[db2 reply] |] eqn:Hhandler; [| discriminate].
    pose proof (messageHandler_keeps_capped _ _ _ _ _ _ _ _ _ Hsize IH1 Hhandler)
      as IH2.
    destruct (Js.truthy reply); simpl in Hrun; injection Hrun as <-;
      [| exact IH2].
    intros userId. simpl.
    destruct (usageEnabled config); [| apply IH2].
    rewrite (getUserContext_same_table db2 _ userId
               (updateUsageCount_context db2 _ _)).
    apply IH2.
  - rewrite getUserContext_lookup. simpl.
    unfold clearUserContext, Database.set.
    destruct (chatModelContext db !! Session.userId session) as [row |] eqn:Hrow;
      simpl.
    + destruct (decide (userId = Session.userId session)) as [-> | Hne].
      * rewrite lookup_insert_eq. simpl. split; [by left | simpl; lia].
      * rewrite lookup_insert_ne by done.
        rewrite <- getUserContext_lookup. apply IH.
    + rewrite <- getUserContext_lookup. apply IH.
Qed.

(** C1, on the code with [contextSize = 0]: the first successful turn
    persists three entries although the cap is [2 * 0 + 1 = 1]; on the
    second turn the loop removes, after the stored exchange, the user turn
    that was just appended (alone, not as part of a pair), the model is
    called with the system turn only, and the context persisted is the
    system turn followed by a lone assistant turn, two entries. *)
Theorem context_cap_broken_at_zero :
  let config := withContextSize defaultConfig 0 in
  let prompt := Config.systemPrompt config in
  exists db1 db2,
    messageHandler 5 config echoModel 1 Database.empty (aliceSays "hi") "hi"
    = Some (db1, "hi")
    /\ getUserContext db1 "alice"
       = [systemTurn prompt; userTurn "hi"; assistantTurn "hi"]
    /\ 2 * Config.contextSize config + 1
       < Z.of_nat (length (getUserContext db1 "alice"))
    /\ prepareContext 5 config db1 (aliceSays "again") "again"
       = Some [systemTurn prompt]
    /\ messageHandler 5 config echoModel 2 db1 (aliceSays "again") "again"
       = Some (db2, prompt)
    /\ getUserContext db2 "alice" = [systemTurn prompt; assistantTurn prompt]
    /\ 2 * Config.contextSize config + 1
       < Z.of_nat (length (getUserContext db2 "alice")).
Proof.
  intros config prompt.
  exists (saveUserContext Database.empty "alice"
            [systemTurn prompt; userTurn "hi"; assistantTurn "hi"] 1).
  exists (saveUserContext
            (saveUserContext Database.empty "alice"
               [systemTurn prompt; userTurn "hi"; assistantTurn "hi"] 1)
            "alice" [systemTurn prompt; assistantTurn prompt] 2).
  repeat split; vm_compute; reflexivity.
Qed.

End Cap.

(** ** The two timeouts *)

Section Deadlines.

Import Database Plugin Props.

Lemma fetchWithAbort_late (x : Http.Exchange) :
  answersBefore x 60000 = false ->
  Http.fetchWithAbort 60000 x = (60000, Js.Rejected Http.abortError).
Proof.
  unfold Http.fetchWithAbort.
  change (Js.timerDelay 60000) with 60000.
  destruct x as [ms r | ms e |]; simpl; try intros ->; reflexivity.
Qed.

Lemma fetchWithAbort_by_deadline (x : Http.Exchange) :
  (Http.fetchWithAbort 60000 x).1 <= 60000.
Proof.
  unfold Http.fetchWithAbort.
  change (Js.timerDelay 60000) with 60000.
  destruct x as [ms r | ms e |]; simpl; try case_ltb; simpl; lia.
Qed.

(** Every adapter settles by its own deadline of 60000 ms, and with the
    time-out error when the provider has not settled the request before. *)
Lemma builtin_deadline (openai : OpenAIAdapter.t) (claude : ClaudeAdapter.t)
    (gemini : GeminiAdapter.t) (x : Http.Exchange) (model : Model)
    (msgs : list Message) (session : Session.t) :
  In model (builtinModels openai claude gemini x) ->
  (exists at_ms how,
     model msgs session = Js.Settles at_ms how /\ at_ms <= 60000)
  /\ (answersBefore x 60000 = false ->
      model msgs session = Js.Settles 60000 (Js.Rejected requestTimedOut)).
Proof.
  intros Hin. simpl in Hin.
  destruct Hin as [<- | [<- | [<- | []]]].
  - unfold OpenAIAdapter.generateResponse, OpenAIAdapter.timeout. split.
    + pose proof (fetchWithAbort_by_deadline x) as Hby.
      destruct (Http.fetchWithAbort 60000 x) as [at_ms fetched]. eauto.
    + intros Hlate. by rewrite (fetchWithAbort_late x Hlate).
  - unfold ClaudeAdapter.generateResponse, ClaudeAdapter.timeout. split.
    + pose proof (fetchWithAbort_by_deadline x) as Hby.
      destruct (Http.fetchWithAbort 60000 x) as [at_ms fetched]. eauto.
    + intros Hlate. by rewrite (fetchWithAbort_late x Hlate).
  - unfold GeminiAdapter.generateResponse, GeminiAdapter.timeout. split.
    + pose proof (fetchWithAbort_by_deadline x) as Hby.
      destruct (Http.fetchWithAbort 60000 x) as [at_ms fetched]. eauto.
    + intros Hlate. by rewrite (fetchWithAbort_late x Hlate).
Qed.

Lemma timerDelay_in_range (ms : Z) :
  1 <= ms <= 2147483647 -> Js.timerDelay ms = ms.
Proof.
  intros Hrange. unfold Js.timerDelay.
  destruct (Z.ltb_spec ms 1); [lia |].
  destruct (Z.ltb_spec 2147483647 ms); [lia | reflexivity].
Qed.

Lemma timerDelay_out_of_range (ms : Z) :
  2147483647 < ms -> Js.timerDelay ms = 1.
Proof.
  intros Hrange. unfold Js.timerDelay.
  destruct (Z.ltb_spec ms 1); [reflexivity |].
  destruct (Z.ltb_spec 2147483647 ms); [reflexivity | lia].
Qed.

(** C10: the adapters are built without reading [responseTimeout], and each
    of them settles by 60000 ms, with the time-out error when the provider
    has not settled the request before, whatever the configuration; the
    timer of the handler's race is [(responseTimeout || 60) * 1000]. So with
    a [responseTimeout] above 60 a provider that takes 60 seconds or more
    is never waited for: the handler saves nothing and returns an apology,
    for the adapter's time-out when the delay of the race is one the timer
    accepts, and for the handler's own time-out otherwise. *)
Theorem response_timeout_leaves_adapter_deadline (config : Config.t) (seconds : Z) :
  (OpenAIAdapter.new (withResponseTimeout config seconds) = OpenAIAdapter.new config
   /\ ClaudeAdapter.new (withResponseTimeout config seconds) = ClaudeAdapter.new config
   /\ GeminiAdapter.new (withResponseTimeout config seconds) = GeminiAdapter.new config)
  /\ OpenAIAdapter.timeout = 60000
  /\ ClaudeAdapter.timeout = 60000
  /\ GeminiAdapter.timeout = 60000
  /\ handlerTimeout (withResponseTimeout config seconds)
     = (if seconds =? 0 then 60 else seconds) * 1000
  /\ (forall openai claude gemini x model msgs session,
        In model (builtinModels openai claude gemini x) ->
        (exists at_ms how,
           model msgs session = Js.Settles at_ms how /\ at_ms <= 60000)
        /\ (answersBefore x 60000 = false ->
            model msgs session = Js.Settles 60000 (Js.Rejected requestTimedOut)))
  /\ (forall openai claude gemini x model fuel now db session text ctx,
        In model (builtinModels openai claude gemini x) ->
        60 < seconds ->
        answersBefore x 60000 = false ->
        prepareContext fuel (withResponseTimeout config seconds) db session text
        = Some ctx ->
        messageHandler fuel (withResponseTimeout config seconds) model now db
          session text
        = Some (db, apology (if seconds * 1000 <=? 2147483647
                             then requestTimedOut else timeoutError))).
Proof.
  split; [repeat split |].
  do 4 (split; [reflexivity |]). split.
  - intros openai claude gemini x model msgs session.
    apply builtin_deadline.
  - intros openai claude gemini x model fuel now db session text ctx
      Hin Hseconds Hlate Hctx.
    unfold messageHandler. rewrite Hctx.
    destruct (builtin_deadline openai claude gemini x model ctx session Hin)
      as [_ Hsettles].
    rewrite (Hsettles Hlate).
    assert (Htimeout : handlerTimeout (withResponseTimeout config seconds)
                       = seconds * 1000).
    { unfold handlerTimeout. simpl.
      destruct (Z.eqb_spec seconds 0); [lia | reflexivity]. }
    unfold race. rewrite Htimeout.
    destruct (Z.leb_spec (seconds * 1000) 2147483647).
    + rewrite timerDelay_in_range by lia.
      destruct (Z.leb_spec 60000 (seconds * 1000)); [reflexivity | lia].
    + rewrite timerDelay_out_of_range by lia.
      reflexivity.
Qed.

Lemma response_timeout_leaves_adapter_deadline_witness :
  let slow :=
    Http.RespondsAfter 90000
      (Http.mkResponse true 200 "OK"
         (Js.Fulfilled
            (Js.Obj [("choices",
                      Js.Arr [Js.Obj [("message",
                                       Js.Obj [("content", Js.Str "late")])]])]))) in
  messageHandler 5 (withResponseTimeout defaultConfig 120)
    (OpenAIAdapter.generateResponse
       (OpenAIAdapter.mk "sk-test" "https://api.openai.com/v1" "gpt-3.5-turbo"
          (7 # 10)%Q)
       (fun _ => slow))
    7 Database.empty (aliceSays "hi") "hi"
  = Some (Database.empty, "抱歉，生成回复时发生错误: 请求超时，请稍后再试").
Proof.
  intros slow.
  apply (proj2 (proj2 (proj2 (proj2 (proj2 (proj2
           (response_timeout_leaves_adapter_deadline defaultConfig 120))))))
           (OpenAIAdapter.mk "sk-test" "https://api.openai.com/v1"
              "gpt-3.5-turbo" (7 # 10)%Q)
           (ClaudeAdapter.mk "k" "e" "m" (7 # 10)%Q)
           (GeminiAdapter.mk "k" "e" "m" (7 # 10)%Q)
           slow _ 5%nat 7 Database.empty (aliceSays "hi") "hi"
           [systemTurn (Config.systemPrompt defaultConfig); userTurn "hi"]).
  - simpl. left. reflexivity.
  - lia.
  - reflexivity.
  - reflexivity.
Defined.

End Deadlines.

(** ** Further properties: the stores *)

Section StoreMore.

Import Database Plugin Props MoreProps.

Lemma saveUserContext_lookup (db : Database.t) (userId : string)
    (ctx : list Message) (now : Z) :
  chatModelContext (saveUserContext db userId ctx now) !! userId
  = Some (mkContextRow (Some ctx) now).
Proof.
  unfold saveUserContext, Database.set, Database.create.
  destruct (chatModelContext db !! userId); simpl; apply lookup_insert_eq.
Qed.

Lemma saveUserContext_lookup_ne (db : Database.t) (userId other : string)
    (ctx : list Message) (now : Z) :
  other <> userId ->
  chatModelContext (saveUserContext db userId ctx now) !! other
  = chatModelContext db !! other.
Proof.
  intros Hne. unfold saveUserContext, Database.set, Database.create.
  destruct (chatModelContext db !! userId); simpl; by rewrite lookup_insert_ne.
Qed.

Lemma saveUserContext_usage (db : Database.t) (userId : string)
    (ctx : list Message) (now : Z) :
  chatModelUsage (saveUserContext db userId ctx now) = chatModelUsage db.
Proof.
  unfold saveUserContext, Database.set.
  destruct (chatModelContext db !! userId); reflexivity.
Qed.

Lemma saveUserContext_table (db : Database.t) (userId : string)
    (ctx : list Message) (now : Z) :
  chatModelContext (saveUserContext db userId ctx now)
  = <[userId := mkContextRow (Some ctx) now]> (chatModelContext db).
Proof.
  unfold saveUserContext, Database.set, Database.create.
  destruct (chatModelContext db !! userId); reflexivity.
Qed.

Lemma database_eq (a b : Database.t) :
  chatModelContext a = chatModelContext b ->
  chatModelUsage a = chatModelUsage b -> a = b.
Proof. destruct a, b. simpl. by intros -> ->. Qed.

(** X1 (saveUserContext, getUserContext): a save followed by a load gives
    back the context saved, whether the user had a record or not; the
    contexts of the other users and the usage table are left alone; and a
    second save replaces the first, so that a user never has two records. *)
Theorem save_then_load (db : Database.t) (userId : string)
    (ctx ctx' : list Message) (now now' : Z) :
  getUserContext (saveUserContext db userId ctx now) userId = ctx
  /\ (forall other, other <> userId ->
        getUserContext (saveUserContext db userId ctx now) other
        = getUserContext db other)
  /\ chatModelUsage (saveUserContext db userId ctx now) = chatModelUsage db
  /\ saveUserContext (saveUserContext db userId ctx now) userId ctx' now'
     = saveUserContext db userId ctx' now'.
Proof.
  split; [apply getUserContext_save |].
  split; [intros other Hne; by apply getUserContext_save_other |].
  split; [apply saveUserContext_usage |].
  apply database_eq.
  - rewrite !saveUserContext_table. apply insert_insert_eq.
  - by rewrite !saveUserContext_usage.
Qed.

Lemma save_then_load_witness :
  getUserContext
    (saveUserContext
       (saveUserContext Database.empty "alice" [userTurn "a"] 1)
       "bob" [userTurn "b"] 2) "alice"
  = getUserContext (saveUserContext Database.empty "alice" [userTurn "a"] 1) "alice".
Proof.
  apply (proj1 (proj2 (save_then_load
           (saveUserContext Database.empty "alice" [userTurn "a"] 1)
           "bob" [userTurn "b"] [] 2 3)) "alice").
  discriminate.
Defined.


(** X2 (clearUserContext, the clear command): clearing a context answers
    with the confirmation, leaves the usage table as it is (the daily count
    is not given back) and leaves the records of the other users alone. *)
Theorem clear_keeps_the_rest (db : Database.t) (session : Session.t) (now : Z) :
  (clearCommand db session now).2 = "已清除对话上下文"
  /\ chatModelUsage (clearCommand db session now).1 = chatModelUsage db
  /\ forall other, other <> Session.userId session ->
       chatModelContext (clearCommand db session now).1 !! other
       = chatModelContext db !! other.
Proof.
  split; [reflexivity |]. simpl.
  unfold clearUserContext, Database.set.
  destruct (chatModelContext db !! Session.userId session); simpl;
    (split; [reflexivity |]); intros other Hne; [| reflexivity].
  by rewrite lookup_insert_ne.
Qed.

Lemma clear_keeps_the_rest_witness :
  chatModelContext
    (clearCommand
       (saveUserContext (saveUserContext Database.empty "bob" [userTurn "b"] 1)
          "alice" [userTurn "a"] 2)
       (aliceSays "clear") 3).1 !! "bob"
  = chatModelContext
      (saveUserContext (saveUserContext Database.empty "bob" [userTurn "b"] 1)
         "alice" [userTurn "a"] 2) !! "bob".
Proof.
  apply (proj2 (proj2 (clear_keeps_the_rest
           (saveUserContext (saveUserContext Database.empty "bob" [userTurn "b"] 1)
              "alice" [userTurn "a"] 2)
           (aliceSays "clear") 3)) "bob").
  discriminate.
Defined.

(** X3 (checkUsageLimit): a configured maximum of 0 is read as 100, since
    the code takes [maxMessagesPerUser || 100]: on the current date a user
    with fewer than 100 uses is allowed, one with 100 uses or more is not. *)
Theorem zero_maximum_means_hundred (db : Database.t) (userId today : string)
    (config : Config.t) (limit : UsageLimit.t) (count : Z) :
  Config.usageLimit config = Some limit ->
  UsageLimit.maxMessagesPerUser limit = 0 ->
  chatModelUsage db !! userId = Some (mkUsageRow count today) ->
  checkUsageLimit db userId config today = (db, count <? 100).
Proof.
  intros Hlimit Hzero Hrow.
  unfold checkUsageLimit, Database.get. rewrite Hrow. simpl.
  rewrite String.eqb_refl. simpl.
  unfold maxPerDay. by rewrite Hlimit, Hzero.
Qed.

Lemma zero_maximum_means_hundred_witness :
  let db := Database.mk ∅ {[ "alice" := mkUsageRow 42 "2024-05-01" ]} in
  checkUsageLimit db "alice"
    (withUsageLimit defaultConfig (UsageLimit.mk true 0 "00:00")) "2024-05-01"
  = (db, true).
Proof.
  intros db.
  apply (zero_maximum_means_hundred db "alice" "2024-05-01"
           (withUsageLimit defaultConfig (UsageLimit.mk true 0 "00:00"))
           (UsageLimit.mk true 0 "00:00") 42).
  - reflexivity.
  - reflexivity.
  - vm_compute. reflexivity.
Defined.

End StoreMore.

(** ** Further properties: the handler and the middleware *)

Section MiddlewareMore.

Import Database Plugin Props MoreProps.

Lemma middleware_unfold (fuel : nat) (config : Config.t) (model : Model)
    (env : Env) (db : Database.t) (session : Session.t) :
  middleware fuel config model env db session =
    match triggerGate config env session with
    | None =>
        Some (mkOutcome db [] false
                (if Js.truthy (handled env) || shouldIgnoreMessage session config
                 then handled env else ""))
    | Some text =>
        let '(db1, allowed) := afterLimitCheck config env db session in
        if negb allowed then Some (mkOutcome db1 [limitReached] true "")
        else
          let queued := if Config.showThinkingMessage config then [thinking] else [] in
          match messageHandler fuel config model (nowAtSave env) db1 session text with
          | None => None
          | Some (db2, reply) =>
              if negb (Js.truthy reply) then Some (mkOutcome db2 queued false "")
              else
                Some (mkOutcome
                        (if usageEnabled config
                         then updateUsageCount db2 (Session.userId session)
                                (todayAtUpdate env)
                         else db2)
                        (queued ++ [reply]) true "")
          end
    end.
Proof. reflexivity. Qed.

(** The runs of the middleware, by the database they leave. *)
Lemma middleware_database (fuel : nat) (config : Config.t) (model : Model)
    (env : Env) (db : Database.t) (session : Session.t) (out : Outcome) :
  middleware fuel config model env db session = Some out ->
  database out = db
  \/ database out = (afterLimitCheck config env db session).1
  \/ exists text db2 reply,
       (afterLimitCheck config env db session).2 = true
       /\ messageHandler fuel config model (nowAtSave env)
            (afterLimitCheck config env db session).1 session text
          = Some (db2, reply)
       /\ (database out = db2
           \/ usageEnabled config = true
              /\ database out
                 = updateUsageCount db2 (Session.userId session) (todayAtUpdate env)).
Proof.
  rewrite middleware_unfold.
  destruct (triggerGate config env session) as [text |];
    [| intros [= <-]; by left].
  destruct (afterLimitCheck config env db session) as [db1 allowed]. simpl.
  destruct allowed; simpl; [| intros [= <-]; right; by left].
  destruct (messageHandler fuel config model (nowAtSave env) db1 session text)
    as [[db2 reply] |] eqn:Hhandler; [| discriminate].
  intros Hout. right. right. exists text, db2, reply.
  split; [reflexivity |]. split; [exact Hhandler |].
  destruct (Js.truthy reply); simpl in Hout; injection Hout as <-; simpl;
    [| by left].
  destruct (usageEnabled config); [right | left]; auto.
Qed.

Lemma messageHandler_usage (fuel : nat) (config : Config.t) (model : Model)
    (now : Z) (db db' : Database.t) (session : Session.t) (text reply : string) :
  messageHandler fuel config model now db session text = Some (db', reply) ->
  chatModelUsage db' = chatModelUsage db
  /\ forall other, other <> Session.userId session ->
       chatModelContext db' !! other = chatModelContext db !! other.
Proof.
  unfold messageHandler.
  destruct (prepareContext fuel config db session text) as [ctx |]; [| discriminate].
  destruct (race (model ctx session) (handlerTimeout config)) as [response | error];
    intros [= <- _].
  - split; [apply saveUserContext_usage |].
    intros other Hne. by apply saveUserContext_lookup_ne.
  - split; [reflexivity | auto].
Qed.

Lemma checkUsageLimit_other (db : Database.t) (userId other today : string)
    (config : Config.t) :
  other <> userId ->
  chatModelUsage (checkUsageLimit db userId config today).1 !! other
  = chatModelUsage db !! other.
Proof.
  intros Hne. unfold checkUsageLimit, Database.get, Database.set.
  destruct (chatModelUsage db !! userId) as [row |]; simpl; [| reflexivity].
  destruct (String.eqb (lastResetDate row) today); simpl; [reflexivity |].
  by rewrite lookup_insert_ne.
Qed.

Lemma updateUsageCount_other (db : Database.t) (userId other today : string) :
  other <> userId ->
  chatModelUsage (updateUsageCount db userId today) !! other
  = chatModelUsage db !! other.
Proof.
  intros Hne. unfold updateUsageCount, Database.get, Database.set, Database.create.
  destruct (chatModelUsage db !! userId) as [row |]; simpl;
    by rewrite lookup_insert_ne.
Qed.

Lemma afterLimitCheck_context (config : Config.t) (env : Env)
    (db : Database.t) (session : Session.t) :
  chatModelContext (afterLimitCheck config env db session).1 = chatModelContext db.
Proof.
  unfold afterLimitCheck. destruct (usageEnabled config); [| reflexivity].
  apply checkUsageLimit_context.
Qed.

Lemma afterLimitCheck_other (config : Config.t) (env : Env)
    (db : Database.t) (session : Session.t) (other : string) :
  other <> Session.userId session ->
  chatModelUsage (afterLimitCheck config env db session).1 !! other
  = chatModelUsage db !! other.
Proof.
  intros Hne. unfold afterLimitCheck. destruct (usageEnabled config); [| reflexivity].
  by apply checkUsageLimit_other.
Qed.

(** X4 (the middleware): whatever a message does, the stored context and
    the usage record of every other user are left as they were. *)
Theorem middleware_touches_one_user (fuel : nat) (config : Config.t)
    (model : Model) (env : Env) (db : Database.t) (session : Session.t)
    (out : Outcome) (other : string) :
  middleware fuel config model env db session = Some out ->
  other <> Session.userId session ->
  chatModelContext (database out) !! other = chatModelContext db !! other
  /\ chatModelUsage (database out) !! other = chatModelUsage db !! other.
Proof.
  intros Hrun Hne.
  pose proof (afterLimitCheck_context config env db session) as Hctx.
  pose proof (afterLimitCheck_other config env db session other Hne) as Huse.
  destruct (middleware_database _ _ _ _ _ _ _ Hrun)
    as [-> | [-> | (text & db2 & reply & _ & Hhandler & Hout)]].
  - split; reflexivity.
  - by rewrite Hctx.
  - destruct (messageHandler_usage _ _ _ _ _ _ _ _ _ Hhandler) as [Husage Hother].
    destruct Hout as [-> | [_ ->]].
    + by rewrite Husage, (Hother other Hne), Hctx.
    + rewrite updateUsageCount_context, (updateUsageCount_other _ _ _ _ Hne).
      by rewrite Husage, (Hother other Hne), Hctx.
Qed.

Lemma middleware_touches_one_user_witness :
  let db := saveUserContext Database.empty "bob" [userTurn "b"] 1 in
  let out :=
    mkOutcome
      (saveUserContext db "alice"
         [systemTurn (Config.systemPrompt defaultConfig); userTurn "hi";
          assistantTurn "hi"] 1714550000000)
      ["hi"] true "" in
  chatModelContext (database out) !! "bob" = chatModelContext db !! "bob".
Proof.
  intros db out.
  apply (proj1 (middleware_touches_one_user 5 defaultConfig echoModel
                  (quietEnv 50) db (aliceSays "hi") out "bob"
                  ltac:(vm_compute; reflexivity) ltac:(discriminate))).
Defined.

(** X5 (the middleware): with the usage limit disabled (or not configured)
    no run of the middleware writes to the usage table. *)
Theorem disabled_limit_keeps_usage (fuel : nat) (config : Config.t)
    (model : Model) (env : Env) (db : Database.t) (session : Session.t)
    (out : Outcome) :
  usageEnabled config = false ->
  middleware fuel config model env db session = Some out ->
  chatModelUsage (database out) = chatModelUsage db.
Proof.
  intros Hoff Hrun.
  assert (Hcheck : afterLimitCheck config env db session = (db, true)).
  { unfold afterLimitCheck. by rewrite Hoff. }
  destruct (middleware_database _ _ _ _ _ _ _ Hrun)
    as [-> | [-> | (text & db2 & reply & _ & Hhandler & Hout)]].
  - reflexivity.
  - by rewrite Hcheck.
  - rewrite Hcheck in Hhandler. simpl in Hhandler.
    destruct (messageHandler_usage _ _ _ _ _ _ _ _ _ Hhandler) as [Husage _].
    destruct Hout as [-> | [Hon _]]; [assumption | congruence].
Qed.

Lemma disabled_limit_keeps_usage_witness :
  middleware 5 defaultConfig echoModel (quietEnv 50) Database.empty (aliceSays "hi")
  = Some (mkOutcome
            (saveUserContext Database.empty "alice"
               [systemTurn (Config.systemPrompt defaultConfig); userTurn "hi";
                assistantTurn "hi"] 1714550000000)
            ["hi"] true "")
  /\ chatModelUsage
       (saveUserContext Database.empty "alice"
          [systemTurn (Config.systemPrompt defaultConfig); userTurn "hi";
           assistantTurn "hi"] 1714550000000)
     = chatModelUsage Database.empty.
Proof.
  assert (Hrun : middleware 5 defaultConfig echoModel (quietEnv 50) Database.empty
                   (aliceSays "hi")
                 = Some (mkOutcome
                           (saveUserContext Database.empty "alice"
                              [systemTurn (Config.systemPrompt defaultConfig);
                               userTurn "hi"; assistantTurn "hi"] 1714550000000)
                           ["hi"] true "")).
  { vm_compute. reflexivity. }
  split; [exact Hrun |].
  exact (disabled_limit_keeps_usage 5 defaultConfig echoModel (quietEnv 50)
           Database.empty (aliceSays "hi") _ eq_refl Hrun).
Defined.

(** X6 (shouldIgnoreMessage, the middleware): a message sent by the bot
    itself, or one that an earlier handler has answered, goes no further:
    nothing is sent, the database is left as it is, and the middleware
    returns what [next()] returned. *)
Theorem own_or_handled_message_is_left (fuel : nat) (config : Config.t)
    (model : Model) (env : Env) (db : Database.t) (session : Session.t) :
  Session.userId session = Session.selfId session \/ handled env <> "" ->
  middleware fuel config model env db session
  = Some (mkOutcome db [] false (handled env)).
Proof.
  intros Hwhy.
  assert (Hskip : Js.truthy (handled env) || shouldIgnoreMessage session config = true).
  { destruct Hwhy as [Hself | Hdone].
    - unfold shouldIgnoreMessage. rewrite Hself, String.eqb_refl.
      apply orb_true_r.
    - destruct (handled env); [contradiction | reflexivity]. }
  rewrite middleware_unfold. unfold triggerGate, structuralContent.
  by rewrite Hskip.
Qed.

Lemma own_or_handled_message_is_left_witness :
  middleware 5 defaultConfig echoModel (quietEnv 50) Database.empty
    (Session.mk "bot" "bot" "bot" "hi")
  = Some (mkOutcome Database.empty [] false "").
Proof.
  apply (own_or_handled_message_is_left 5 defaultConfig echoModel (quietEnv 50)
           Database.empty (Session.mk "bot" "bot" "bot" "hi")).
  left. reflexivity.
Defined.

End MiddlewareMore.

(** ** Further properties: turns, quota and cap *)

Section TurnsMore.

Import Database Plugin Props MoreProps.

(** X7 (checkUsageLimit, the middleware): with the limit enabled, a user
    whose count of the day has reached the maximum gets the notice and
    nothing else: the model is not called, and the database is unchanged. *)
Theorem limit_reached_only_notifies (fuel : nat) (config : Config.t)
    (model : Model) (env : Env) (db : Database.t) (session : Session.t)
    (text : string) (count : Z) :
  usageEnabled config = true ->
  triggerGate config env session = Some text ->
  chatModelUsage db !! Session.userId session
  = Some (mkUsageRow count (todayAtCheck env)) ->
  maxPerDay config <= count ->
  middleware fuel config model env db session
  = Some (mkOutcome db ["今日对话次数已达上限，请明天再来"] true "").
Proof.
  intros Hon Hgate Hrow Hfull.
  rewrite middleware_unfold, Hgate. unfold afterLimitCheck. rewrite Hon.
  unfold checkUsageLimit, Database.get. rewrite Hrow. simpl.
  rewrite String.eqb_refl. simpl.
  destruct (Z.ltb_spec count (maxPerDay config)); [lia | reflexivity].
Qed.

Lemma limit_reached_only_notifies_witness :
  let db := Database.mk ∅ {[ "alice" := mkUsageRow 3 "2024-05-01" ]} in
  middleware 5 (withUsageLimit defaultConfig (UsageLimit.mk true 3 "00:00"))
    echoModel (quietEnv 50) db (aliceSays "hi")
  = Some (mkOutcome db ["今日对话次数已达上限，请明天再来"] true "").
Proof.
  intros db.
  apply (limit_reached_only_notifies 5
           (withUsageLimit defaultConfig (UsageLimit.mk true 3 "00:00"))
           echoModel (quietEnv 50) db (aliceSays "hi") "hi" 3).
  - reflexivity.
  - vm_compute. reflexivity.
  - vm_compute. reflexivity.
  - vm_compute. discriminate.
Defined.

(** X8 (createMessageHandler, the middleware): when the model answers with
    the empty string, the exchange is persisted with an empty assistant
    turn, but nothing is sent beyond the optional thinking notice, the
    message is not marked as handled and no use is recorded. *)
Theorem empty_reply_is_stored_not_sent (fuel : nat) (config : Config.t)
    (model : Model) (env : Env) (db db1 : Database.t) (session : Session.t)
    (text : string) (ctx : list Message) :
  triggerGate config env session = Some text ->
  afterLimitCheck config env db session = (db1, true) ->
  prepareContext fuel config db1 session text = Some ctx ->
  race (model ctx session) (handlerTimeout config) = Js.Fulfilled "" ->
  middleware fuel config model env db session
  = Some (mkOutcome
            (saveUserContext db1 (Session.userId session)
               (ctx ++ [assistantTurn ""]) (nowAtSave env))
            (if Config.showThinkingMessage config then [thinking] else [])
            false "").
Proof.
  intros Hgate Hcheck Hctx Hrace.
  rewrite middleware_unfold, Hgate, Hcheck. simpl.
  unfold messageHandler. by rewrite Hctx, Hrace.
Qed.

Lemma empty_reply_is_stored_not_sent_witness :
  let config := withUsageLimit defaultConfig (UsageLimit.mk true 3 "00:00") in
  middleware 5 config (constantModel "") (quietEnv 50) Database.empty (aliceSays "hi")
  = Some (mkOutcome
            (saveUserContext Database.empty "alice"
               ([systemTurn (Config.systemPrompt config); userTurn "hi"]
                ++ [assistantTurn ""]) 1714550000000)
            [] false "").
Proof.
  intros config.
  apply (empty_reply_is_stored_not_sent 5 config (constantModel "") (quietEnv 50)
           Database.empty Database.empty (aliceSays "hi") "hi"
           [systemTurn (Config.systemPrompt config); userTurn "hi"]).
  - vm_compute. reflexivity.
  - vm_compute. reflexivity.
  - vm_compute. reflexivity.
  - vm_compute. reflexivity.
Defined.

(** X9 (createMessageHandler, the middleware): when the model answers with
    a non-empty reply, the reply is what is sent (after the optional
    thinking notice), the exchange is persisted, the message is marked as
    handled, and with the limit enabled the count of the day goes up by
    exactly one. *)
Theorem answered_turn_is_sent_and_counted (fuel : nat) (config : Config.t)
    (model : Model) (env : Env) (db db1 : Database.t) (session : Session.t)
    (text response : string) (ctx : list Message) :
  triggerGate config env session = Some text ->
  afterLimitCheck config env db session = (db1, true) ->
  prepareContext fuel config db1 session text = Some ctx ->
  race (model ctx session) (handlerTimeout config) = Js.Fulfilled response ->
  response <> "" ->
  let saved :=
    saveUserContext db1 (Session.userId session)
      (ctx ++ [assistantTurn response]) (nowAtSave env) in
  let final :=
    if usageEnabled config
    then updateUsageCount saved (Session.userId session) (todayAtUpdate env)
    else saved in
  middleware fuel config model env db session
  = Some (mkOutcome final
            ((if Config.showThinkingMessage config then [thinking] else [])
             ++ [response]) true "")
  /\ getUserContext final (Session.userId session) = ctx ++ [assistantTurn response]
  /\ (usageEnabled config = true ->
      usedOn final (Session.userId session) (todayAtUpdate env)
      = usedOn db1 (Session.userId session) (todayAtUpdate env) + 1).
Proof.
  intros Hgate Hcheck Hctx Hrace Hfull saved final.
  assert (Htruthy : Js.truthy response = true).
  { destruct response; [contradiction | reflexivity]. }
  split; [| split].
  - rewrite middleware_unfold, Hgate, Hcheck. simpl.
    unfold messageHandler. rewrite Hctx, Hrace. simpl. by rewrite Htruthy.
  - unfold final. destruct (usageEnabled config).
    + rewrite (getUserContext_same_table saved _ _ (updateUsageCount_context _ _ _)).
      apply getUserContext_save.
    + apply getUserContext_save.
  - intros Hon. unfold final. rewrite Hon, usedOn_update.
    unfold usedOn, saved. by rewrite saveUserContext_usage.
Qed.

Lemma answered_turn_is_sent_and_counted_witness :
  let config := withUsageLimit defaultConfig (UsageLimit.mk true 3 "00:00") in
  sent <$> middleware 5 config (constantModel "hello") (quietEnv 50)
             Database.empty (aliceSays "hi")
  = Some ["hello"].
Proof.
  intros config.
  rewrite (proj1 (answered_turn_is_sent_and_counted 5 config (constantModel "hello")
                    (quietEnv 50) Database.empty Database.empty (aliceSays "hi")
                    "hi" "hello"
                    [systemTurn (Config.systemPrompt config); userTurn "hi"]
                    ltac:(vm_compute; reflexivity) ltac:(vm_compute; reflexivity)
                    ltac:(vm_compute; reflexivity) ltac:(vm_compute; reflexivity)
                    ltac:(discriminate))).
  reflexivity.
Defined.

(** X10 (createMessageHandler): with a negative [contextSize] the loop that
    enforces the cap never ends, so the handler never returns, and the
    middleware never finishes a message that has passed the gate and the
    usage limit. *)
Theorem negative_context_size_hangs (fuel : nat) (config : Config.t)
    (model : Model) (env : Env) (db : Database.t) (session : Session.t)
    (text : string) :
  Config.contextSize config < 0 ->
  (forall now, messageHandler fuel config model now db session text = None)
  /\ (triggerGate config env session = Some text ->
      (afterLimitCheck config env db session).2 = true ->
      middleware fuel config model env db session = None).
Proof.
  intros Hneg.
  assert (Hhang : forall now db0,
             messageHandler fuel config model now db0 session text = None).
  { intros now db0. unfold messageHandler, prepareContext.
    by rewrite limitContext_diverges. }
  split; [intros now; apply Hhang |].
  intros Hgate Hallowed. rewrite middleware_unfold, Hgate.
  destruct (afterLimitCheck config env db session) as [db1 allowed].
  simpl in Hallowed. subst allowed. simpl. by rewrite Hhang.
Qed.

Lemma negative_context_size_hangs_witness :
  middleware 1000 (withContextSize defaultConfig (-1)) echoModel (quietEnv 50)
    Database.empty (aliceSays "hi") = None.
Proof.
  apply (proj2 (negative_context_size_hangs 1000
                  (withContextSize defaultConfig (-1)) echoModel (quietEnv 50)
                  Database.empty (aliceSays "hi") "hi" ltac:(reflexivity))).
  - reflexivity.
  - reflexivity.
Defined.

End TurnsMore.

(** ** Further properties: invariants over the runs of the plugin *)

Section Invariants.

Import Database Plugin Props MoreProps.






End Invariants.

(** ** Further properties: what the model is given *)

Section Context.

Import Database Plugin Props MoreProps.

(** The context the handler prepares from a stored context of the shape it
    persists: the system turn with the current prompt, the exchanges kept,
    and the new user turn. *)
Lemma prepareContext_shape (fuel : nat) (config : Config.t) (db : Database.t)
    (session : Session.t) (text : string) :
  1 <= Config.contextSize config ->
  StoredShape (getUserContext db (Session.userId session)) ->
  (length (getUserContext db (Session.userId session)) < fuel)%nat ->
  exists evicted kept,
    tail (getUserContext db (Session.userId session)) = evicted ++ kept
    /\ Exchanges evicted /\ Exchanges kept
    /\ Z.of_nat (length kept) + 2 <= Config.contextSize config * 2 + 1
    /\ prepareContext fuel config db session text
       = Some (systemTurn (Config.systemPrompt config) :: kept ++ [userTurn text]).
Proof.
  intros Hsize Hshape Hfuel. unfold prepareContext.
  destruct Hshape as [Hempty | (prompt & hist & Hstored & Hhist)].
  - rewrite Hempty. simpl. rewrite limitContext_unfold. simpl length.
    case_ltb; [lia |]. exists [], [].
    repeat split; try constructor. simpl. lia.
  - rewrite Hstored in Hfuel |- *. simpl in Hfuel.
    destruct (limitContext_exchanges (Config.contextSize config) hist Hsize Hhist
                fuel (systemTurn prompt) (userTurn text))
      as (evicted & kept & -> & Hev & Hkept & Hrun & Hlen); [lia |].
    change ((systemTurn prompt :: evicted ++ kept) ++ [userTurn text])
      with (systemTurn prompt :: (evicted ++ kept) ++ [userTurn text]).
    rewrite Hrun. exists evicted, kept. simpl. auto.
Qed.



(** X13 (the middleware, the handler, the clear command): with a
    [contextSize] of at least 1, however messages (answered, failed,
    refused or ignored) and clears follow one another from an empty store,
    every stored context is empty or is the system turn followed by whole
    exchanges, with at most [2 * contextSize + 1] entries. *)
Theorem stored_contexts_within_cap (config : Config.t) (db : Database.t)
    (userId : string) :
  1 <= Config.contextSize config ->
  Reachable config db ->
  getUserContext db userId = []
  \/ exists prompt rest,
       getUserContext db userId = systemTurn prompt :: rest
       /\ Exchanges rest
       /\ Z.of_nat (length (getUserContext db userId))
          <= 2 * Config.contextSize config + 1.
Proof.
  intros Hsize Hreach.
  destruct (reachable_contexts_capped config db Hsize Hreach userId)
    as [[Hempty | (prompt & rest & Hctx & Hrest)] Hlen]; [by left |].
  right. exists prompt, rest. auto.
Qed.

Lemma stored_contexts_within_cap_witness :
  let config := withContextSize defaultConfig 1 in
  let stored := [systemTurn (Config.systemPrompt config); userTurn "hi";
                 assistantTurn "hi"] in
  stored = []
  \/ exists prompt rest,
       stored = systemTurn prompt :: rest /\ Exchanges rest
       /\ Z.of_nat (length stored) <= 2 * Config.contextSize config + 1.
Proof.
  intros config stored.
  assert (Hrun : middleware 5 config echoModel (quietEnv 50) Database.empty
                   (aliceSays "hi")
                 = Some (mkOutcome
                           (saveUserContext Database.empty "alice" stored
                              1714550000000) ["hi"] true "")).
  { vm_compute. reflexivity. }
  pose proof (stored_contexts_within_cap config _ "alice"
                ltac:(vm_compute; discriminate)
                (Reachable_message config _ _ _ _ _ _ (Reachable_empty config) Hrun))
    as Hcap.
  simpl database in Hcap. rewrite getUserContext_save in Hcap. exact Hcap.
Defined.

(** X14 (exports.apply, the probabilistic test): raising [triggerRatio]
    never turns an accepted message into a rejected one: a message let
    through with ratio [r] is let through, with the same text, with every
    ratio above [r]. *)
Theorem gate_is_monotone (config : Config.t) (env : Env) (session : Session.t)
    (text : string) (r r' : Z) :
  r <= r' ->
  triggerGate (withTriggerRatio config r) env session = Some text ->
  triggerGate (withTriggerRatio config r') env session = Some text.
Proof.
  intros Hle. unfold triggerGate.
  change (structuralContent (withTriggerRatio config r') env session)
    with (structuralContent (withTriggerRatio config r) env session).
  destruct (structuralContent (withTriggerRatio config r) env session)
    as [t |]; [| discriminate].
  unfold ratioRejects. simpl.
  destruct (Z.ltb_spec r' 100); simpl; [| destruct (_ && _); done].
  destruct (Z.ltb_spec r 100); [| lia]. simpl.
  destruct (Qle_bool (sample env) (inject_Z r)) eqn:Hin; [| discriminate].
  intros Hsome. apply Qle_bool_iff in Hin.
  assert (Hin' : Qle_bool (sample env) (inject_Z r') = true).
  { apply Qle_bool_iff. eapply Qle_trans; [exact Hin |].
    rewrite <- Zle_Qle. exact Hle. }
  by rewrite Hin'.
Qed.

Lemma gate_is_monotone_witness :
  triggerGate (withTriggerRatio defaultConfig 80) (quietEnv 30) (aliceSays "hi")
  = Some "hi".
Proof.
  apply (gate_is_monotone defaultConfig (quietEnv 30) (aliceSays "hi") "hi" 40 80).
  - lia.
  - vm_compute. reflexivity.
Defined.

End Context.

(** ** Further properties: the formats of the adapters *)

Section FormatsMore.

Import Database Plugin Props MoreProps.

Lemma Exchanges_not_system (l : list Message) :
  Exchanges l -> List.filter notSystem l = l.
Proof.
  induction 1 as [| question answer rest _ IH]; [reflexivity |].
  change (List.filter notSystem (userTurn question :: assistantTurn answer :: rest))
    with (userTurn question :: assistantTurn answer :: List.filter notSystem rest).
  by rewrite IH.
Qed.

Lemma conversation_of_context (prompt text : string) (kept : list Message) :
  Exchanges kept ->
  List.filter notSystem (systemTurn prompt :: kept ++ [userTurn text])
  = kept ++ [userTurn text].
Proof.
  intros Hkept.
  change (List.filter notSystem (systemTurn prompt :: kept ++ [userTurn text]))
    with (List.filter notSystem (kept ++ [userTurn text])).
  rewrite List.filter_app, (Exchanges_not_system kept Hkept). reflexivity.
Qed.

Lemma gemini_roles_of_exchanges (kept : list Message) (after : list string) :
  Exchanges kept ->
  alternates "user"
    (List.map GeminiAdapter.grole (List.map GeminiAdapter.convert kept) ++ after)
  = alternates "user" after.
Proof.
  induction 1 as [| question answer rest _ IH]; [reflexivity |].
  simpl. exact IH.
Qed.

Lemma gemini_format_unfold (msgs : list Message) :
  GeminiAdapter.formatMessages msgs =
    let converted :=
      (if Js.truthy (findSystemContent msgs)
       then [ GeminiAdapter.mkContent "user"
                [GeminiAdapter.mkPart
                   (GeminiAdapter.systemPrefix +:+ findSystemContent msgs)];
              GeminiAdapter.mkContent "model"
                [GeminiAdapter.mkPart GeminiAdapter.acknowledgment] ]
       else [])
      ++ List.map GeminiAdapter.convert (List.filter notSystem msgs) in
    match converted with
    | [] => [GeminiAdapter.mkContent "user" [GeminiAdapter.mkPart GeminiAdapter.filler]]
    | first :: _ =>
        if String.eqb (GeminiAdapter.grole first) "user" then converted
        else GeminiAdapter.mkContent "user"
               [GeminiAdapter.mkPart GeminiAdapter.filler] :: converted
    end.
Proof. reflexivity. Qed.

Lemma gemini_convert_role (msg : Message) :
  GeminiAdapter.grole (GeminiAdapter.convert msg) = "user"
  \/ GeminiAdapter.grole (GeminiAdapter.convert msg) = "model".
Proof.
  unfold GeminiAdapter.convert. simpl.
  destruct (String.eqb (role msg) "user"); auto.
Qed.

(** X15 (GeminiAdapter.formatMessages): whatever the turns given, also
    none, the list returned is not empty, its first entry has the role
    [user], and every entry has the role [user] or [model] and exactly one
    part. *)
Theorem gemini_format_starts_with_user (msgs : list Message) :
  (exists first rest,
     GeminiAdapter.formatMessages msgs = first :: rest
     /\ GeminiAdapter.grole first = "user")
  /\ Forall (fun entry =>
               (GeminiAdapter.grole entry = "user"
                \/ GeminiAdapter.grole entry = "model")
               /\ length (GeminiAdapter.parts entry) = 1%nat)
       (GeminiAdapter.formatMessages msgs).
Proof.
  rewrite gemini_format_unfold.
  set (synthetic := if Js.truthy (findSystemContent msgs) then _ else _).
  assert (Hsynthetic :
            Forall (fun entry =>
                      (GeminiAdapter.grole entry = "user"
                       \/ GeminiAdapter.grole entry = "model")
                      /\ length (GeminiAdapter.parts entry) = 1%nat) synthetic).
  { unfold synthetic. destruct (Js.truthy (findSystemContent msgs));
      [| constructor].
    constructor; [simpl; auto |]. constructor; [simpl; auto | constructor]. }
  assert (Hconverted :
            Forall (fun entry =>
                      (GeminiAdapter.grole entry = "user"
                       \/ GeminiAdapter.grole entry = "model")
                      /\ length (GeminiAdapter.parts entry) = 1%nat)
              (synthetic
               ++ List.map GeminiAdapter.convert (List.filter notSystem msgs))).
  { apply Forall_app. split; [assumption |].
    apply Forall_forall. intros entry Hin.
    apply list_elem_of_In, in_map_iff in Hin as (msg & <- & _).
    split; [apply gemini_convert_role | reflexivity]. }
  simpl.
  destruct (synthetic
            ++ List.map GeminiAdapter.convert (List.filter notSystem msgs))
    as [| first rest] eqn:Hlist.
  - split; [eauto |]. constructor; [simpl; auto | constructor].
  - destruct (String.eqb_spec (GeminiAdapter.grole first) "user") as [Huser | _].
    + split; [eauto | assumption].
    + split; [eauto |]. constructor; [simpl; auto | assumption].
Qed.

(** X16 (createMessageHandler with GeminiAdapter.formatMessages): on the
    context the handler prepares (a [contextSize] of at least 1, a stored
    context of the shape it persists) the Gemini format alternates between
    [user] and [model] from [user] on, and ends with the user's new text. *)
Theorem gemini_request_alternates (fuel : nat) (config : Config.t)
    (db : Database.t) (session : Session.t) (text : string) :
  1 <= Config.contextSize config ->
  StoredShape (getUserContext db (Session.userId session)) ->
  (length (getUserContext db (Session.userId session)) < fuel)%nat ->
  exists ctx front,
    prepareContext fuel config db session text = Some ctx
    /\ alternates "user"
         (List.map GeminiAdapter.grole (GeminiAdapter.formatMessages ctx)) = true
    /\ GeminiAdapter.formatMessages ctx
       = front ++ [GeminiAdapter.mkContent "user" [GeminiAdapter.mkPart text]].
Proof.
  intros Hsize Hshape Hfuel.
  destruct (prepareContext_shape fuel config db session text Hsize Hshape Hfuel)
    as (evicted & kept & _ & _ & Hkept & _ & Hctx).
  exists (systemTurn (Config.systemPrompt config) :: kept ++ [userTurn text]).
  assert (Hformat :
            GeminiAdapter.formatMessages
              (systemTurn (Config.systemPrompt config) :: kept ++ [userTurn text])
            = (if Js.truthy (Config.systemPrompt config)
               then [ GeminiAdapter.mkContent "user"
                        [GeminiAdapter.mkPart
                           (GeminiAdapter.systemPrefix +:+ Config.systemPrompt config)];
                      GeminiAdapter.mkContent "model"
                        [GeminiAdapter.mkPart GeminiAdapter.acknowledgment] ]
               else [])
              ++ List.map GeminiAdapter.convert kept
              ++ [GeminiAdapter.mkContent "user" [GeminiAdapter.mkPart text]]).
  { rewrite gemini_format_unfold.
    rewrite (conversation_of_context (Config.systemPrompt config) text kept Hkept).
    change (findSystemContent
              (systemTurn (Config.systemPrompt config) :: kept ++ [userTurn text]))
      with (Config.systemPrompt config).
    rewrite List.map_app.
    destruct (Js.truthy (Config.systemPrompt config)); [reflexivity |].
    destruct Hkept; reflexivity. }
  exists ((if Js.truthy (Config.systemPrompt config)
           then [ GeminiAdapter.mkContent "user"
                    [GeminiAdapter.mkPart
                       (GeminiAdapter.systemPrefix +:+ Config.systemPrompt config)];
                  GeminiAdapter.mkContent "model"
                    [GeminiAdapter.mkPart GeminiAdapter.acknowledgment] ]
           else [])
          ++ List.map GeminiAdapter.convert kept).
  split; [exact Hctx |]. rewrite Hformat. split; [| by rewrite <- app_assoc].
  destruct (Js.truthy (Config.systemPrompt config)); simpl;
    rewrite List.map_app, gemini_roles_of_exchanges by assumption; reflexivity.
Qed.

Lemma gemini_request_alternates_witness :
  let db := saveUserContext Database.empty "alice"
              [systemTurn "P"; userTurn "q1"; assistantTurn "a1"] 1 in
  exists ctx front,
    prepareContext 5 defaultConfig db (aliceSays "q2") "q2" = Some ctx
    /\ alternates "user"
         (List.map GeminiAdapter.grole (GeminiAdapter.formatMessages ctx)) = true
    /\ GeminiAdapter.formatMessages ctx
       = front ++ [GeminiAdapter.mkContent "user" [GeminiAdapter.mkPart "q2"]].
Proof.
  intros db.
  apply (gemini_request_alternates 5 defaultConfig db (aliceSays "q2") "q2").
  - vm_compute. discriminate.
  - right. exists "P", [userTurn "q1"; assistantTurn "a1"].
    split; [vm_compute; reflexivity | repeat constructor].
  - vm_compute. lia.
Defined.




End FormatsMore.

(** ** Further properties: the answers of the providers *)

Section Responses.

Import Props MoreProps.

Lemma startsWith_app (p rest : string) : Js.startsWith (p +:+ rest) p = true.
Proof.
  induction p as [| c p IH]; simpl; [by destruct rest |].
  by rewrite Ascii.eqb_refl.
Qed.

Lemma includes_of_startsWith (s p : string) :
  Js.startsWith s p = true -> Js.includes s p = true.
Proof.
  intros Hstart.
  assert (Hunfold : Js.includes s p =
                    if Js.startsWith s p then true
                    else match s with
                         | EmptyString => false
                         | String _ s' => Js.includes s' p
                         end) by (destruct s; reflexivity).
  by rewrite Hunfold, Hstart.
Qed.

Lemma includes_infix (before p after : string) :
  Js.includes (before +:+ p +:+ after) p = true.
Proof.
  induction before as [| c before IH].
  - apply includes_of_startsWith. exact (startsWith_app p after).
  - simpl. rewrite IH.
    match goal with |- (if ?b then _ else _) = _ => destruct b end; reflexivity.
Qed.

Lemma getProp_defined (v : Js.Value) (key : string) :
  v <> Js.Null -> v <> Js.Undefined ->
  exists w, Js.getProp v key = Js.Fulfilled w.
Proof. destruct v; simpl; intros Hnull Hundef; try congruence; eauto. Qed.

Lemma getProp_truthy (v : Js.Value) (key : string) :
  Js.truthyValue v = true -> exists w, Js.getProp v key = Js.Fulfilled w.
Proof. destruct v; simpl; intros Htruthy; try discriminate; eauto. Qed.

Lemma fetchWithAbort_in_time (ms : Z) (response : Http.Response) :
  ms < 60000 ->
  Http.fetchWithAbort 60000 (Http.RespondsAfter ms response)
  = (ms, Js.Fulfilled response).
Proof.
  intros Hms. unfold Http.fetchWithAbort.
  change (Js.timerDelay 60000) with 60000.
  destruct (Z.ltb_spec ms 60000); [reflexivity | lia].
Qed.

Lemma not_blocked (A : Type) (v : Js.Value) (blocked other : A) :
  v <> Js.Str "SAFETY" ->
  match v with
  | Js.Str "SAFETY" => blocked
  | _ => other
  end = other.
Proof.
  intros Hne. destruct v as [| | b | n | s | items | fields]; try reflexivity.
  do 6 (destruct s as [| [[] [] [] [] [] [] [] []] s]; try reflexivity).
  destruct s; [congruence | reflexivity].
Qed.



(** X19 (generateResponse of the three adapters): an answer with the HTTP
    status 429 that arrives before the deadline, whatever its status text
    and its body (unless the body is the JSON value null), is reported as
    the rate-limit error. *)
Theorem status_429_is_rate_limited (ms : Z) (msgs : list Message)
    (session : Session.t) (statusText : string) (body : Js.Settled Js.Value) :
  ms < 60000 ->
  Http.jsonOrEmpty (Http.mkResponse false 429 statusText body) <> Js.Null ->
  Http.jsonOrEmpty (Http.mkResponse false 429 statusText body) <> Js.Undefined ->
  let provider :=
    Http.RespondsAfter ms (Http.mkResponse false 429 statusText body) in
  let rateLimited := Js.Settles ms (Js.Rejected (Js.newError "请求过于频繁，请稍后再试")) in
  (forall self, OpenAIAdapter.generateResponse self (fun _ => provider) msgs session
                = rateLimited)
  /\ (forall self, ClaudeAdapter.generateResponse self (fun _ => provider) msgs session
                   = rateLimited)
  /\ (forall self, GeminiAdapter.generateResponse self (fun _ => provider) msgs session
                   = rateLimited).
Proof.
  intros Hms Hnull Hundef provider rateLimited.
  destruct (getProp_defined _ "error" Hnull Hundef) as [inner Hinner].
  assert (Hcode : forall rest,
             Js.includes ("API请求失败: " +:+ pretty 429 +:+ rest) "429" = true).
  { intros rest. apply (includes_infix "API请求失败: " "429" rest). }
  assert (Hbind : forall (A B : Type) (a : A) (k : A -> Js.Settled B),
             (Js.Fulfilled a ≫= k) = k a) by reflexivity.
  split; [| split]; intros self.
  - unfold OpenAIAdapter.generateResponse, OpenAIAdapter.timeout, provider.
    rewrite fetchWithAbort_in_time by assumption.
    unfold OpenAIAdapter.readResponse. rewrite Hbind.
    cbn [Http.ok negb]. rewrite Hinner, Hbind.
    destruct (Js.truthyValue inner) eqn:Htruthy.
    + destruct (getProp_truthy inner "message" Htruthy) as [detail ->].
      rewrite Hbind.
      cbn [OpenAIAdapter.classify Js.newError Js.name Js.message
           Http.status Http.statusText].
      by rewrite Hcode.
    + rewrite Hbind.
      cbn [OpenAIAdapter.classify Js.newError Js.name Js.message
           Http.status Http.statusText].
      by rewrite Hcode.
  - unfold ClaudeAdapter.generateResponse, ClaudeAdapter.timeout, provider.
    rewrite fetchWithAbort_in_time by assumption.
    unfold ClaudeAdapter.readResponse. rewrite Hbind.
    cbn [Http.ok negb]. rewrite Hinner, Hbind.
    cbn [ClaudeAdapter.classify Js.newError Js.name Js.message
         Http.status Http.statusText].
    by rewrite Hcode.
  - unfold GeminiAdapter.generateResponse, GeminiAdapter.timeout, provider.
    rewrite fetchWithAbort_in_time by assumption.
    unfold GeminiAdapter.readResponse. rewrite Hbind.
    cbn [Http.ok negb]. rewrite Hinner, Hbind.
    destruct (Js.truthyValue inner) eqn:Htruthy.
    + destruct (getProp_truthy inner "message" Htruthy) as [detail ->].
      rewrite Hbind.
      cbn [GeminiAdapter.classify Js.newError Js.name Js.message
           Http.status Http.statusText].
      by rewrite Hcode.
    + rewrite Hbind.
      cbn [GeminiAdapter.classify Js.newError Js.name Js.message
           Http.status Http.statusText].
      by rewrite Hcode.
Qed.

Lemma status_429_is_rate_limited_witness :
  ClaudeAdapter.generateResponse
    (ClaudeAdapter.mk "key" "https://api.anthropic.com/v1"
       "claude-3-sonnet-20240229" (7 # 10)%Q)
    (fun _ => Http.RespondsAfter 300
                (Http.mkResponse false 429 "Too Many Requests"
                   (Js.Fulfilled
                      (Js.Obj [("error",
                                Js.Obj [("type", Js.Str "rate_limit_error")])]))))
    [mkMessage "user" "hi"] (aliceSays "hi")
  = Js.Settles 300 (Js.Rejected (Js.newError "请求过于频繁，请稍后再试")).
Proof.
  apply (proj1 (proj2 (status_429_is_rate_limited 300 [mkMessage "user" "hi"]
                         (aliceSays "hi") "Too Many Requests"
                         (Js.Fulfilled
                            (Js.Obj [("error",
                                      Js.Obj [("type", Js.Str "rate_limit_error")])]))
                         ltac:(lia) ltac:(discriminate) ltac:(discriminate)))).
Defined.

End Responses.

(** ** Further properties: missing text, construction and loading *)

Section Startup.

Import Props MoreProps Loader.

(** X20 (generateResponse of the three adapters): the adapters differ on
    an answer whose text is missing. Claude tests the text and rejects a
    missing, null or empty [content[0].text] as an invalid response; OpenAI
    and Gemini do not test it, so a missing or null
    [choices[0].message.content], or a first part without [text], passes
    the check of the shape and is rejected with a [TypeError] instead. *)
Theorem missing_text_by_adapter (ms : Z) (msgs : list Message)
    (session : Session.t) (top : list (string * Js.Value)) :
  ms < 60000 ->
  (forall self block others,
     Js.lookupField "content" top = Js.Arr (Js.Obj block :: others) ->
     Js.truthyValue (Js.lookupField "text" block) = false ->
     ClaudeAdapter.generateResponse self (fun _ => okAfter ms (Js.Obj top))
       msgs session
     = Js.Settles ms (Js.Rejected (Js.newError "收到无效的API响应")))
  /\ (forall self choice others message,
        Js.lookupField "choices" top = Js.Arr (Js.Obj choice :: others) ->
        Js.lookupField "message" choice = Js.Obj message ->
        Js.lookupField "content" message = Js.Undefined
        \/ Js.lookupField "content" message = Js.Null ->
        exists error,
          OpenAIAdapter.generateResponse self (fun _ => okAfter ms (Js.Obj top))
            msgs session
          = Js.Settles ms (Js.Rejected error)
          /\ Js.name error = "TypeError")
  /\ (forall self candidate others body part parts,
        Js.lookupField "candidates" top = Js.Arr (Js.Obj candidate :: others) ->
        Js.lookupField "content" candidate = Js.Obj body ->
        Js.lookupField "parts" body = Js.Arr (Js.Obj part :: parts) ->
        Js.lookupField "finishReason" candidate <> Js.Str "SAFETY" ->
        Js.lookupField "text" part = Js.Undefined
        \/ Js.lookupField "text" part = Js.Null ->
        exists error,
          GeminiAdapter.generateResponse self (fun _ => okAfter ms (Js.Obj top))
            msgs session
          = Js.Settles ms (Js.Rejected error)
          /\ Js.name error = "TypeError").
Proof.
  intros Hms. split; [| split].
  - intros self block others Hblocks Htext.
    unfold ClaudeAdapter.generateResponse, ClaudeAdapter.timeout, okAfter.
    rewrite fetchWithAbort_in_time by assumption.
    unfold ClaudeAdapter.readResponse. simpl.
    rewrite Hblocks. simpl. by rewrite Htext.
  - intros self choice others message Hchoices Hmessage Hcontent.
    unfold OpenAIAdapter.generateResponse, OpenAIAdapter.timeout, okAfter.
    rewrite fetchWithAbort_in_time by assumption.
    unfold OpenAIAdapter.readResponse. simpl.
    rewrite Hchoices. simpl. rewrite Hmessage. simpl.
    destruct Hcontent as [-> | ->]; eexists; split; reflexivity.
  - intros self candidate others body part parts
      Hcandidates Hbody Hparts Hreason Htext.
    unfold GeminiAdapter.generateResponse, GeminiAdapter.timeout, okAfter.
    rewrite fetchWithAbort_in_time by assumption.
    unfold GeminiAdapter.readResponse. simpl.
    rewrite Hcandidates. simpl. rewrite Hbody. simpl. rewrite Hparts. simpl.
    rewrite (not_blocked _ _ _ _ Hreason). simpl.
    destruct Htext as [-> | ->]; eexists; split; reflexivity.
Qed.

Lemma missing_text_by_adapter_witness :
  exists error,
    OpenAIAdapter.generateResponse
      (OpenAIAdapter.mk "sk-test" "https://api.openai.com/v1" "gpt-4" (7 # 10)%Q)
      (fun _ => okAfter 900
                  (Js.Obj [("choices",
                            Js.Arr [Js.Obj [("message",
                                             Js.Obj [("role", Js.Str "assistant");
                                                     ("content", Js.Null)])]])]))
      [mkMessage "user" "hi"] (aliceSays "hi")
    = Js.Settles 900 (Js.Rejected error)
    /\ Js.name error = "TypeError".
Proof.
  apply (proj1 (proj2 (missing_text_by_adapter 900 [mkMessage "user" "hi"]
                         (aliceSays "hi")
                         [("choices",
                           Js.Arr [Js.Obj [("message",
                                            Js.Obj [("role", Js.Str "assistant");
                                                    ("content", Js.Null)])]])]
                         ltac:(lia)))
           _ [("message", Js.Obj [("role", Js.Str "assistant");
                                  ("content", Js.Null)])]
           [] [("role", Js.Str "assistant"); ("content", Js.Null)]).
  - reflexivity.
  - reflexivity.
  - right. reflexivity.
Defined.

Lemma orElse_truthy (a b : string) :
  Js.truthy b = true -> Js.truthy (Js.orElse a b) = true.
Proof. unfold Js.orElse. intros Hb. by destruct a. Qed.

Lemma truthy_nonempty (s : string) : Js.truthy s = true -> s <> "".
Proof. by destruct s. Qed.

Lemma orElse_first (a b : string) : a <> "" -> Js.orElse a b = a.
Proof. destruct a; [contradiction | reflexivity]. Qed.

(** The constructors fail exactly on an empty key. *)
Lemma adapters_need_an_api_key_helper (config : Config.t) :
  (Config.apiKey config = "" ->
   OpenAIAdapter.new config = Js.Rejected (Js.newError "OpenAI API密钥未设置")
   /\ ClaudeAdapter.new config = Js.Rejected (Js.newError "Claude API密钥未设置")
   /\ GeminiAdapter.new config = Js.Rejected (Js.newError "Gemini API密钥未设置"))
  /\ (Config.apiKey config <> "" ->
      (exists self, OpenAIAdapter.new config = Js.Fulfilled self)
      /\ (exists self, ClaudeAdapter.new config = Js.Fulfilled self)
      /\ (exists self, GeminiAdapter.new config = Js.Fulfilled self)).
Proof.
  split.
  - intros Hkey.
    unfold OpenAIAdapter.new, ClaudeAdapter.new, GeminiAdapter.new. simpl.
    rewrite Hkey. simpl. auto.
  - intros Hkey.
    assert (Htruthy : Js.truthy (Config.apiKey config) = true).
    { destruct (Config.apiKey config); [contradiction | reflexivity]. }
    unfold OpenAIAdapter.new, ClaudeAdapter.new, GeminiAdapter.new. simpl.
    rewrite Htruthy. split; [| split]; eexists; reflexivity.
Qed.

(** X21 (the constructors of the three adapters): construction fails, with
    the adapter's own message, exactly when the API key is empty; otherwise
    the instance carries the key, an endpoint that is the configured one
    when there is one and is never empty, and a model name that is never
    empty. *)
Theorem adapters_need_an_api_key (config : Config.t) :
  (Config.apiKey config = "" ->
   OpenAIAdapter.new config = Js.Rejected (Js.newError "OpenAI API密钥未设置")
   /\ ClaudeAdapter.new config = Js.Rejected (Js.newError "Claude API密钥未设置")
   /\ GeminiAdapter.new config = Js.Rejected (Js.newError "Gemini API密钥未设置"))
  /\ (Config.apiKey config <> "" ->
      (exists self,
         OpenAIAdapter.new config = Js.Fulfilled self
         /\ OpenAIAdapter.apiKey self = Config.apiKey config
         /\ OpenAIAdapter.apiEndpoint self <> ""
         /\ (Config.apiEndpoint config <> "" ->
             OpenAIAdapter.apiEndpoint self = Config.apiEndpoint config)
         /\ OpenAIAdapter.modelName self <> "")
      /\ (exists self,
            ClaudeAdapter.new config = Js.Fulfilled self
            /\ ClaudeAdapter.apiKey self = Config.apiKey config
            /\ ClaudeAdapter.apiEndpoint self <> ""
            /\ (Config.apiEndpoint config <> "" ->
                ClaudeAdapter.apiEndpoint self = Config.apiEndpoint config)
            /\ ClaudeAdapter.modelName self <> "")
      /\ (exists self,
            GeminiAdapter.new config = Js.Fulfilled self
            /\ GeminiAdapter.apiKey self = Config.apiKey config
            /\ GeminiAdapter.apiEndpoint self <> ""
            /\ (Config.apiEndpoint config <> "" ->
                GeminiAdapter.apiEndpoint self = Config.apiEndpoint config)
            /\ GeminiAdapter.modelName self <> "")).
Proof.
  split.
  - intros Hkey.
    unfold OpenAIAdapter.new, ClaudeAdapter.new, GeminiAdapter.new. simpl.
    rewrite Hkey. simpl. auto.
  - intros Hkey.
    assert (Htruthy : Js.truthy (Config.apiKey config) = true).
    { destruct (Config.apiKey config); [contradiction | reflexivity]. }
    unfold OpenAIAdapter.new, ClaudeAdapter.new, GeminiAdapter.new. simpl.
    rewrite Htruthy.
    split; [| split]; eexists; (split; [reflexivity |]); simpl;
      (split; [reflexivity |]);
      (split; [by apply truthy_nonempty, orElse_truthy |]);
      (split; [by apply orElse_first |]);
      apply truthy_nonempty; repeat apply orElse_truthy; reflexivity.
Qed.

Lemma adapters_need_an_api_key_witness :
  OpenAIAdapter.new (withApiKey defaultConfig "")
  = Js.Rejected (Js.newError "OpenAI API密钥未设置")
  /\ exists self,
       GeminiAdapter.new (withApiKey defaultConfig "key") = Js.Fulfilled self
       /\ GeminiAdapter.apiKey self = "key".
Proof.
  split.
  - apply (proj1 (adapters_need_an_api_key (withApiKey defaultConfig ""))).
    reflexivity.
  - destruct (proj2 (proj2 (proj2 (adapters_need_an_api_key
                                     (withApiKey defaultConfig "key"))
                              ltac:(discriminate))))
      as (self & Hnew & Hkey & _).
    exists self. split; assumption.
Defined.

(** X22 (loadModelAdapter, exports.apply): a model type other than
    [claude], [gemini] and [custom] (so also an unknown one) loads the
    OpenAI adapter; the custom type without a path fails with the wrapped
    message, and an error thrown while loading the custom module is wrapped
    in the same way; and for a type other than [custom] the start of the
    plugin succeeds exactly when the API key is not empty, the error of the
    constructor being passed on as it is. *)
Theorem loading_the_adapter (requireCustom customNew : string -> option Js.Error)
    (config : Config.t) :
  (Config.modelType config <> "claude" ->
   Config.modelType config <> "gemini" ->
   Config.modelType config <> "custom" ->
   loadModelAdapter requireCustom config = Js.Fulfilled OpenAIModule)
  /\ (Config.modelType config = "custom" ->
      (Config.customModelAdapter config = "" ->
       loadModelAdapter requireCustom config
       = Js.Rejected (Js.newError
                        "加载模型适配器失败: 使用自定义模型时必须提供适配器路径"))
      /\ (forall error,
            Config.customModelAdapter config <> "" ->
            requireCustom (Config.customModelAdapter config) = Some error ->
            loadModelAdapter requireCustom config
            = Js.Rejected (Js.newError
                             ("加载模型适配器失败: " +:+ Js.message error))))
  /\ (Config.modelType config <> "custom" ->
      (Config.apiKey config <> "" ->
       exists instance, startModel requireCustom customNew config
                        = Js.Fulfilled instance)
      /\ (Config.apiKey config = "" ->
          exists error,
            startModel requireCustom customNew config = Js.Rejected error
            /\ Js.includes (Js.message error) "API密钥未设置" = true
            /\ Js.startsWith (Js.message error) "加载模型适配器失败" = false)).
Proof.
  split; [| split].
  - intros Hclaude Hgemini Hcustom. unfold loadModelAdapter.
    destruct (String.eqb_spec (Config.modelType config) "openai"); [reflexivity |].
    destruct (String.eqb_spec (Config.modelType config) "claude"); [contradiction |].
    destruct (String.eqb_spec (Config.modelType config) "gemini"); [contradiction |].
    destruct (String.eqb_spec (Config.modelType config) "custom"); [contradiction |].
    reflexivity.
  - intros Hcustom. unfold loadModelAdapter. rewrite Hcustom. simpl. split.
    + intros ->. reflexivity.
    + intros error Hpath Hfails.
      destruct (Config.customModelAdapter config) eqn:Hp; [contradiction |].
      simpl. by rewrite Hfails.
  - intros Hcustom.
    assert (Hload : loadModelAdapter requireCustom config = Js.Fulfilled OpenAIModule
                    \/ loadModelAdapter requireCustom config = Js.Fulfilled ClaudeModule
                    \/ loadModelAdapter requireCustom config = Js.Fulfilled GeminiModule).
    { unfold loadModelAdapter.
      destruct (String.eqb_spec (Config.modelType config) "openai"); [auto |].
      destruct (String.eqb_spec (Config.modelType config) "claude"); [auto |].
      destruct (String.eqb_spec (Config.modelType config) "gemini"); [auto |].
      destruct (String.eqb_spec (Config.modelType config) "custom"); [contradiction |].
      auto. }
    unfold startModel. split.
    + intros Hkey.
      destruct (proj2 (adapters_need_an_api_key_helper config) Hkey)
        as ((o & Ho) & (c & Hc) & (g & Hg)).
      destruct Hload as [-> | [-> | ->]]; simpl.
      * rewrite Ho. simpl. eauto.
      * rewrite Hc. simpl. eauto.
      * rewrite Hg. simpl. eauto.
    + intros Hkey.
      destruct (proj1 (adapters_need_an_api_key_helper config) Hkey)
        as (Ho & Hc & Hg).
      destruct Hload as [-> | [-> | ->]]; simpl.
      * rewrite Ho. simpl. eexists. repeat split; reflexivity.
      * rewrite Hc. simpl. eexists. repeat split; reflexivity.
      * rewrite Hg. simpl. eexists. repeat split; reflexivity.
Qed.

Lemma loading_the_adapter_witness :
  loadModelAdapter (fun _ => None) (withModelType defaultConfig "llama" "")
  = Js.Fulfilled OpenAIModule
  /\ loadModelAdapter (fun _ => None) (withModelType defaultConfig "custom" "")
     = Js.Rejected (Js.newError
                      "加载模型适配器失败: 使用自定义模型时必须提供适配器路径")
  /\ exists instance,
       startModel (fun _ => None) (fun _ => None)
         (withModelType defaultConfig "gemini" "")
       = Js.Fulfilled instance.
Proof.
  split; [| split].
  - apply (proj1 (loading_the_adapter (fun _ => None) (fun _ => None)
                    (withModelType defaultConfig "llama" ""))); discriminate.
  - apply (proj1 (proj1 (proj2 (loading_the_adapter (fun _ => None) (fun _ => None)
                                  (withModelType defaultConfig "custom" "")))
                    eq_refl)).
    reflexivity.
  - apply (proj1 (proj2 (proj2 (loading_the_adapter (fun _ => None) (fun _ => None)
                                  (withModelType defaultConfig "gemini" "")))
                    ltac:(discriminate))).
    discriminate.
Defined.

End Startup.

(** ** Further properties: a short response timeout *)

Section ShortTimeout.

Import Database Plugin Props MoreProps.

Lemma builtin_settle_time (openai : OpenAIAdapter.t) (claude : ClaudeAdapter.t)
    (gemini : GeminiAdapter.t) (x : Http.Exchange) (model : Model)
    (msgs : list Message) (session : Session.t) :
  In model (builtinModels openai claude gemini x) ->
  exists how,
    model msgs session = Js.Settles (Http.fetchWithAbort 60000 x).1 how.
Proof.
  intros Hin. simpl in Hin.
  destruct Hin as [<- | [<- | [<- | []]]].
  - unfold OpenAIAdapter.generateResponse, OpenAIAdapter.timeout.
    destruct (Http.fetchWithAbort 60000 x) as [at_ms fetched]. simpl. eauto.
  - unfold ClaudeAdapter.generateResponse, ClaudeAdapter.timeout.
    destruct (Http.fetchWithAbort 60000 x) as [at_ms fetched]. simpl. eauto.
  - unfold GeminiAdapter.generateResponse, GeminiAdapter.timeout.
    destruct (Http.fetchWithAbort 60000 x) as [at_ms fetched]. simpl. eauto.
Qed.

(** X23 (createMessageHandler with the adapters of lib/): with a
    [responseTimeout] of less than 60 seconds, an answer of the provider
    that arrives after that time, however good, is discarded: the handler
    saves nothing and returns the apology for its own time-out. *)
Theorem short_timeout_discards_late_answers (config : Config.t)
    (openai : OpenAIAdapter.t) (claude : ClaudeAdapter.t)
    (gemini : GeminiAdapter.t) (model : Model) (ms : Z)
    (response : Http.Response) (fuel : nat) (now : Z) (db : Database.t)
    (session : Session.t) (text : string) (ctx : list Message) :
  In model (builtinModels openai claude gemini (Http.RespondsAfter ms response)) ->
  0 < Config.responseTimeout config < 60 ->
  Config.responseTimeout config * 1000 < ms ->
  prepareContext fuel config db session text = Some ctx ->
  messageHandler fuel config model now db session text
  = Some (db, "抱歉，生成回复时发生错误: 响应超时").
Proof.
  intros Hin Hshort Hlate Hctx.
  unfold messageHandler. rewrite Hctx.
  destruct (builtin_settle_time _ _ _ _ _ ctx session Hin) as [how ->].
  assert (Htimeout : handlerTimeout config = Config.responseTimeout config * 1000).
  { unfold handlerTimeout.
    destruct (Z.eqb_spec (Config.responseTimeout config) 0); [lia | reflexivity]. }
  unfold race. rewrite Htimeout, timerDelay_in_range by lia.
  unfold Http.fetchWithAbort. change (Js.timerDelay 60000) with 60000.
  destruct (Z.ltb_spec ms 60000); simpl.
  - destruct (Z.leb_spec ms (Config.responseTimeout config * 1000));
      [lia | reflexivity].
  - destruct (Z.leb_spec 60000 (Config.responseTimeout config * 1000));
      [lia | reflexivity].
Qed.

Lemma short_timeout_discards_late_answers_witness :
  messageHandler 5 (withResponseTimeout defaultConfig 10)
    (OpenAIAdapter.generateResponse
       (OpenAIAdapter.mk "sk-test" "https://api.openai.com/v1" "gpt-3.5-turbo"
          (7 # 10)%Q)
       (fun _ => okAfter 15000
                   (Js.Obj [("choices",
                             Js.Arr [Js.Obj [("message",
                                              Js.Obj [("content", Js.Str "late")])]])])))
    7 Database.empty (aliceSays "hi") "hi"
  = Some (Database.empty, "抱歉，生成回复时发生错误: 响应超时").
Proof.
  apply (short_timeout_discards_late_answers (withResponseTimeout defaultConfig 10)
           (OpenAIAdapter.mk "sk-test" "https://api.openai.com/v1" "gpt-3.5-turbo"
              (7 # 10)%Q)
           (ClaudeAdapter.mk "k" "e" "m" (7 # 10)%Q)
           (GeminiAdapter.mk "k" "e" "m" (7 # 10)%Q)
           _ 15000
           (Http.mkResponse true 200 "OK"
              (Js.Fulfilled
                 (Js.Obj [("choices",
                           Js.Arr [Js.Obj [("message",
                                            Js.Obj [("content", Js.Str "late")])]])])))
           5%nat 7 Database.empty (aliceSays "hi") "hi"
           [systemTurn (Config.systemPrompt defaultConfig); userTurn "hi"]).
  - simpl. left. reflexivity.
  - simpl. lia.
  - simpl. lia.
  - reflexivity.
Defined.

End ShortTimeout.
